(** * Backstage CLI: the templating configuration loader and the GitLab
      issue-creation action

    The development follows
    [packages/cli/src/lib/new/preparation/loadConfig.ts]: the JSON value read
    from the manifest, the zod schema [pkgJsonWithNewConfigSchema] as a
    composition of parser combinators, and [loadConfig] itself.

    JavaScript objects are finite maps from property names to values
    ([gmap string _]); arrays are lists.  Numbers are never inspected by this
    code, only carried around and tested for their type, so a rational stands
    for the double.  Property enumeration order is not modelled: where zod
    walks the properties of an object, the model walks the map.  The zod
    schemas follow the documented behaviour of the library (which inputs a
    schema accepts, what data it returns, which issues it raises at which
    path); no property name is special to them.

    The second part covers the [gitlab:issues:create] action, of which the
    sources hold the test suite only: the handler is written down from the
    specification and replayed on the fixtures of that suite. *)

From Stdlib Require Import Ascii QArith ZArith.
From stdpp Require Import gmap strings list fin_maps.

Set Warnings "-register-all".

(** ** Values *)

(** What [fs.readJson] hands back: the result of [JSON.parse]. *)
Inductive json :=
| JNull
| JBool (b : bool)
| JNumber (q : Q)
| JString (s : string)
| JArray (l : list json)
| JObject (o : gmap string json).

(** [string | number | boolean], the value type of [globals] and of
    [globalOverrides]. *)
Inductive scalar :=
| SString (s : string)
| SNumber (q : Q)
| SBoolean (b : bool).

Definition scalar_to_json (s : scalar) : json :=
  match s with
  | SString s => JString s
  | SNumber q => JNumber q
  | SBoolean b => JBool b
  end.

Definition json_to_scalar (v : json) : option scalar :=
  match v with
  | JString s => Some (SString s)
  | JNumber q => Some (SNumber q)
  | JBool b => Some (SBoolean b)
  | _ => None
  end.

(** [v?.[k]] on a value that may be [undefined]: a property read that yields
    [undefined] on anything that is not an object holding [k]. *)
Definition json_get (k : string) (v : option json) : option json :=
  match v with
  | Some (JObject o) => o !! k
  | _ => None
  end.

(** ** The zod combinators used by the schema *)

Module Zod.

Inductive ZodParsedType :=
| undefined | null | boolean | number | string_ | array | object.

(** [getParsedType]; a missing property reads as [undefined]. *)
Definition getParsedType (v : option json) : ZodParsedType :=
  match v with
  | None => undefined
  | Some JNull => null
  | Some (JBool _) => boolean
  | Some (JNumber _) => number
  | Some (JString _) => string_
  | Some (JArray _) => array
  | Some (JObject _) => object
  end.

Inductive PathElem :=
| PKey (k : string)
| PIndex (i : nat).

Inductive ZodIssue :=
| invalid_type (expected received : ZodParsedType) (path : list PathElem)
| unrecognized_keys (keys : list string) (path : list PathElem)
| invalid_union (unionErrors : list (list ZodIssue)) (path : list PathElem).

(** The outcome of a parse as [safeParse] reports it: the parsed data, or
    the issues collected on the way. *)
Inductive ParseResult (A : Type) :=
| OK (data : A)
| INVALID (issues : list ZodIssue).
Arguments OK {A} data.
Arguments INVALID {A} issues.

Definition issues_of {A} (r : ParseResult A) : list ZodIssue :=
  match r with
  | OK _ => []
  | INVALID issues => issues
  end.

Definition is_ok {A} (r : ParseResult A) : bool :=
  match r with
  | OK _ => true
  | INVALID _ => false
  end.

Definition result_map {A B} (f : A → B) (r : ParseResult A) : ParseResult B :=
  match r with
  | OK a => OK (f a)
  | INVALID issues => INVALID issues
  end.

(** A schema takes the input (or [undefined]) and the path it sits at. *)
Definition Parser (A : Type) := option json → list PathElem → ParseResult A.

Definition zString : Parser string := λ v path,
  match v with
  | Some (JString s) => OK s
  | _ => INVALID [invalid_type string_ (getParsedType v) path]
  end.

Definition zNumber : Parser Q := λ v path,
  match v with
  | Some (JNumber q) => OK q
  | _ => INVALID [invalid_type number (getParsedType v) path]
  end.

Definition zBoolean : Parser bool := λ v path,
  match v with
  | Some (JBool b) => OK b
  | _ => INVALID [invalid_type boolean (getParsedType v) path]
  end.

(** [.optional()]: [undefined] is accepted as it is, anything else (also
    [null]) goes to the inner schema. *)
Definition zOptional {A} (inner : Parser A) : Parser (option A) := λ v path,
  match v with
  | None => OK None
  | Some _ => result_map Some (inner v path)
  end.

(** [z.union]: the first option that accepts wins; when none does, one
    [invalid_union] issue carries the issues of every option. *)
Fixpoint union_try {A} (options : list (Parser A)) (v : option json)
    (path : list PathElem) (errs : list (list ZodIssue)) : ParseResult A :=
  match options with
  | [] => INVALID [invalid_union errs path]
  | opt :: rest =>
      match opt v path with
      | OK a => OK a
      | INVALID issues => union_try rest v path (errs ++ [issues])
      end
  end.

Definition zUnion {A} (options : list (Parser A)) : Parser A := λ v path,
  union_try options v path [].

(** All children are parsed; the result is valid when every child is, and
    otherwise holds the issues of all of them in order. *)
Fixpoint collect {A} (rs : list (ParseResult A)) : ParseResult (list A) :=
  match rs with
  | [] => OK []
  | r :: rs' =>
      match r, collect rs' with
      | OK a, OK as_ => OK (a :: as_)
      | _, c => INVALID (issues_of r ++ issues_of c)
      end
  end.

Definition zArray {A} (element : Parser A) : Parser (list A) := λ v path,
  match v with
  | Some (JArray l) =>
      collect (imap (λ i x, element (Some x) (path ++ [PIndex i])) l)
  | _ => INVALID [invalid_type array (getParsedType v) path]
  end.

(** [ParseStatus.mergeObjectSync]: the parsed pairs become the properties of
    the result, except a pair under the key [__proto__], which is left out. *)
Definition mergeObject {A} (pairs : list (string * A)) : gmap string A :=
  list_to_map (filter (λ kv, kv.1 ≠ "__proto__") pairs).

(** [z.record(valueType)]: every property value is parsed under its key, and
    the parsed pairs are merged into the result. *)
Definition zRecord {A} (valueType : Parser A) : Parser (gmap string A) := λ v path,
  match v with
  | Some (JObject o) =>
      result_map mergeObject
        (collect ((λ kx : string * json,
                     result_map (pair kx.1)
                       (valueType (Some kx.2) (path ++ [PKey kx.1])))
                  <$> map_to_list o))
  | _ => INVALID [invalid_type object (getParsedType v) path]
  end.

(** [z.object] strips unknown keys silently; [.strict()] reports them. *)
Inductive UnknownKeys := strip | strict.

Definition extraKeys (shapeKeys : list string) (o : gmap string json) : list string :=
  filter (λ k, k ∉ shapeKeys) (map_to_list o).*1.

Definition unknownKeysIssues (unknownKeys : UnknownKeys) (shapeKeys : list string)
    (o : gmap string json) (path : list PathElem) : list ZodIssue :=
  match unknownKeys with
  | strip => []
  | strict =>
      match extraKeys shapeKeys o with
      | [] => []
      | ks => [unrecognized_keys ks path]
      end
  end.

(** An object schema with one shape key: the key is parsed first, the
    unknown keys are reported after it. *)
Definition zObject1 {A B} (unknownKeys : UnknownKeys)
    (k1 : string) (s1 : Parser A) (mk : A → B) : Parser B := λ v path,
  match v with
  | Some (JObject o) =>
      let r1 := s1 (o !! k1) (path ++ [PKey k1]) in
      let unk := unknownKeysIssues unknownKeys [k1] o path in
      match r1, unk with
      | OK a, [] => OK (mk a)
      | _, _ => INVALID (issues_of r1 ++ unk)
      end
  | _ => INVALID [invalid_type object (getParsedType v) path]
  end.

(** An object schema with two shape keys. *)
Definition zObject2 {A1 A2 B} (unknownKeys : UnknownKeys)
    (k1 : string) (s1 : Parser A1) (k2 : string) (s2 : Parser A2)
    (mk : A1 → A2 → B) : Parser B := λ v path,
  match v with
  | Some (JObject o) =>
      let r1 := s1 (o !! k1) (path ++ [PKey k1]) in
      let r2 := s2 (o !! k2) (path ++ [PKey k2]) in
      let unk := unknownKeysIssues unknownKeys [k1; k2] o path in
      match r1, r2, unk with
      | OK a1, OK a2, [] => OK (mk a1 a2)
      | _, _, _ => INVALID (issues_of r1 ++ issues_of r2 ++ unk)
      end
  | _ => INVALID [invalid_type object (getParsedType v) path]
  end.

Definition safeParse {A} (schema : Parser A) (input : json) : ParseResult A :=
  schema (Some input) [].

(** [fromZodError]: a [ValidationError] whose [details] are the issues. *)
Record ValidationError := { details : list ZodIssue }.

Definition fromZodError (issues : list ZodIssue) : ValidationError :=
  {| details := issues |}.

End Zod.
Import Zod.

(** ** The manifest schema and its parsed data *)

(** One entry of [templates]: [{ id, target }]. *)
Record TemplatePointer := {
  tp_id : string;
  tp_target : string;
}.

(** The data that [pkgJsonWithNewConfigSchema] infers, from the inside out:
    the [new] block, the [backstage] block, the manifest. *)
Record NewBlock := {
  nb_templates : option (list TemplatePointer);
  nb_globals : option (gmap string scalar);
}.

Record BackstageBlock := {
  bs_new : option NewBlock;
}.

Record PkgJson := {
  pj_backstage : option BackstageBlock;
}.

(** [z.union([z.string(), z.number(), z.boolean()])] *)
Definition globalValueSchema : Parser scalar :=
  zUnion [ (λ v path, result_map SString (zString v path));
           (λ v path, result_map SNumber (zNumber v path));
           (λ v path, result_map SBoolean (zBoolean v path)) ].

(** [z.object({ id: z.string(), target: z.string() }).strict()] *)
Definition templatePointerSchema : Parser TemplatePointer :=
  zObject2 strict "id" zString "target" zString Build_TemplatePointer.

(** The [new] block: both keys optional, no other key allowed. *)
Definition newBlockSchema : Parser NewBlock :=
  zObject2 strict
    "templates" (zOptional (zArray templatePointerSchema))
    "globals" (zOptional (zRecord globalValueSchema))
    Build_NewBlock.

Definition backstageBlockSchema : Parser BackstageBlock :=
  zObject1 strip "new" (zOptional newBlockSchema) Build_BackstageBlock.

Definition pkgJsonWithNewConfigSchema : Parser PkgJson :=
  zObject1 strip "backstage" (zOptional backstageBlockSchema) Build_PkgJson.

(** ** loadConfig *)

Record NewConfig := {
  isUsingDefaultTemplates : bool;
  templatePointers : list TemplatePointer;
  globals : gmap string scalar;
}.

Record LoadConfigOptions := {
  packagePath : option string;
  globalOverrides : option (gmap string scalar);
}.

(** What [loadConfig] can throw: whatever the file read threw, passed on as it
    is, or the [ForwardedError] of a manifest that does not validate. *)
Inductive LoadConfigError :=
| ReadError (description : string)
| ForwardedError (message : string) (cause : ValidationError).

Definition defaultGlobals : gmap string scalar :=
  <["license" := SString "Apache-2.0"]>
    (<["baseVersion" := SString "0.1.0"]>
       (<["private" := SBoolean true]> ∅)).

(** [{ ...acc, ...src }]: every own property of [src] is defined on the object
    under construction, replacing a property of the same name; spreading
    [undefined] adds nothing. *)
Definition spread {A} (src : option (gmap string A)) (acc : gmap string A) : gmap string A :=
  match src with
  | None => acc
  | Some m => map_fold (λ k v acc', <[k := v]> acc') acc m
  end.

(** [!x] where [x] is an array or [undefined]: every array, the empty one
    too, is truthy. *)
Definition not_array {A} (x : option (list A)) : bool :=
  match x with
  | None => true
  | Some _ => false
  end.

Section LoadConfig.

(** The file system, the target root and the template list imported from
    [../defaultTemplates] are what the module is linked against. *)
Variable readJson : string → LoadConfigError + json.
Variable resolveTargetRoot : string → string.
Variable defaultTemplates : list TemplatePointer.

Definition pkgPathOf (options : LoadConfigOptions) : string :=
  default (resolveTargetRoot "package.json") (packagePath options).

Definition loadConfig (options : LoadConfigOptions) : LoadConfigError + NewConfig :=
  let pkgPath := pkgPathOf options in
  match readJson pkgPath with
  | inl e => inl e
  | inr pkgJson =>
      match safeParse pkgJsonWithNewConfigSchema pkgJson with
      | INVALID issues =>
          inl (ForwardedError
                 ("Failed to load templating configuration from '" +:+ pkgPath +:+ "'")
                 (fromZodError issues))
      | OK data =>
          let newConfig := pj_backstage data ≫= bs_new in
          inr {| isUsingDefaultTemplates := not_array (newConfig ≫= nb_templates);
                 templatePointers := default defaultTemplates (newConfig ≫= nb_templates);
                 globals :=
                   spread (globalOverrides options)
                     (spread (newConfig ≫= nb_globals)
                        (spread (Some defaultGlobals) ∅)) |}
      end
  end.

End LoadConfig.

(** ** What a manifest declares, read off the raw JSON *)

(** [pkgJson.backstage?.new] *)
Definition manifestNewBlock (pkgJson : json) : option json :=
  json_get "new" (json_get "backstage" (Some pkgJson)).

(** [pkgJson.backstage?.new?.templates] *)
Definition manifestTemplates (pkgJson : json) : option json :=
  json_get "templates" (manifestNewBlock pkgJson).

(** The globals a manifest declares: the string, number and boolean
    properties of [pkgJson.backstage?.new?.globals], none when the path is
    missing. *)
Definition manifestGlobals (pkgJson : json) : gmap string scalar :=
  match json_get "globals" (manifestNewBlock pkgJson) with
  | Some (JObject o) => omap json_to_scalar o
  | _ => ∅
  end.

Definition templatePointer_to_json (tp : TemplatePointer) : json :=
  JObject (<["id" := JString (tp_id tp)]> (<["target" := JString (tp_target tp)]> ∅)).

(** The layering of the specification: [upper] over [lower], the upper layer
    winning where both define a key. *)
Definition overlay {A} (lower upper : gmap string A) : gmap string A :=
  upper ∪ lower.

(** ** Dates in the ECMAScript date-time string format *)

(** The part of the runtime's [Date] that the due date of an issue goes
    through: parsing a string in the standard date-time format with an
    explicit zone, or a bare date, and printing a time value with
    [toISOString].  A date-time without a zone (local time) and the formats an
    engine accepts beyond the standard one are outside this module, which
    gives the invalid date for them. *)
Module ISODate.

(** A time value: milliseconds since 1970-01-01T00:00:00Z. *)
Definition msPerDay : Z := 86400000.

Definition is_leap (y : Z) : bool :=
  (y mod 4 =? 0)%Z && (negb (y mod 100 =? 0)%Z || (y mod 400 =? 0)%Z).

Definition days_in_month (y m : Z) : Z :=
  if (m =? 2)%Z then (if is_leap y then 29 else 28)%Z
  else if ((m =? 4) || (m =? 6) || (m =? 9) || (m =? 11))%Z then 30%Z
  else 31%Z.

(** Day number of a proleptic Gregorian date, day 0 being 1970-01-01. *)
Definition days_from_civil (y m d : Z) : Z :=
  let y' := if (m <=? 2)%Z then (y - 1)%Z else y in
  let era := (y' / 400)%Z in
  let yoe := (y' - era * 400)%Z in
  let mp := ((m + 9) mod 12)%Z in
  let doy := ((153 * mp + 2) / 5 + d - 1)%Z in
  let doe := (yoe * 365 + yoe / 4 - yoe / 100 + doy)%Z in
  (era * 146097 + doe - 719468)%Z.

(** The date of a day number: year, month, day of the month. *)
Definition civil_from_days (n : Z) : Z * Z * Z :=
  let z := (n + 719468)%Z in
  let era := (z / 146097)%Z in
  let doe := (z - era * 146097)%Z in
  let yoe := ((doe - doe / 1460 + doe / 36524 - doe / 146096) / 365)%Z in
  let y := (yoe + era * 400)%Z in
  let doy := (doe - (365 * yoe + yoe / 4 - yoe / 100))%Z in
  let mp := ((5 * doy + 2) / 153)%Z in
  let d := (doy - (153 * mp + 2) / 5 + 1)%Z in
  let m := if (mp <? 10)%Z then (mp + 3)%Z else (mp - 9)%Z in
  (if (m <=? 2)%Z then (y + 1)%Z else y, m, d).

Definition digit_of (c : ascii) : option Z :=
  let n := nat_of_ascii c in
  if bool_decide (48 ≤ n ≤ 57) then Some (Z.of_nat (n - 48)) else None.

Definition digit_char (d : Z) : ascii := ascii_of_nat (48 + Z.to_nat d).

(** Reads exactly [n] decimal digits off the front of [s]. *)
Fixpoint take_digits (n : nat) (acc : Z) (s : string) : option (Z * string) :=
  match n with
  | O => Some (acc, s)
  | S n' =>
      match s with
      | String c s' => d ← digit_of c; take_digits n' (acc * 10 + d)%Z s'
      | EmptyString => None
      end
  end.

Definition expect (c : ascii) (s : string) : option string :=
  match s with
  | String c' s' => if bool_decide (c = c') then Some s' else None
  | EmptyString => None
  end.

(** The zone designator that ends a date-time: [Z], or [+HH:mm] / [-HH:mm];
    the result is the offset from UTC in minutes. *)
Definition parse_zone (s : string) : option Z :=
  match s with
  | String c rest =>
      if bool_decide (c = "Z"%char) then
        (if bool_decide (rest = EmptyString) then Some 0%Z else None)
      else
        sign ← (if bool_decide (c = "+"%char) then Some 1%Z
                else if bool_decide (c = "-"%char) then Some (-1)%Z else None);
        '(hh, s1) ← take_digits 2 0 rest;
        s2 ← expect ":"%char s1;
        '(mm, s3) ← take_digits 2 0 s2;
        if bool_decide (s3 = EmptyString) && (hh <=? 23)%Z && (mm <=? 59)%Z
        then Some (sign * (hh * 60 + mm))%Z else None
  | EmptyString => None
  end.

(** The time of day after the [T]: [HH:mm:ss], an optional [.sss], then the
    zone; the result is the offset in milliseconds from midnight UTC. *)
Definition parse_time (s : string) : option Z :=
  '(hh, s1) ← take_digits 2 0 s;
  s2 ← expect ":"%char s1;
  '(mi, s3) ← take_digits 2 0 s2;
  s4 ← expect ":"%char s3;
  '(ss, s5) ← take_digits 2 0 s4;
  '(ms, s6) ← match expect "."%char s5 with
              | Some s' => take_digits 3 0 s'
              | None => Some (0%Z, s5)
              end;
  zone ← parse_zone s6;
  if (hh <=? 23)%Z && (mi <=? 59)%Z && (ss <=? 59)%Z
  then Some (((hh * 60 + mi - zone) * 60 + ss) * 1000 + ms)%Z else None.

(** [Date.parse] on the bare date [YYYY-MM-DD] (midnight UTC) and on the
    date-time [YYYY-MM-DDTHH:mm:ss(.sss)(Z|+HH:mm|-HH:mm)]; [None] is the
    invalid date. *)
Definition parse (s : string) : option Z :=
  '(y, s1) ← take_digits 4 0 s;
  s2 ← expect "-"%char s1;
  '(m, s3) ← take_digits 2 0 s2;
  s4 ← expect "-"%char s3;
  '(d, s5) ← take_digits 2 0 s4;
  if (1 <=? m)%Z && (m <=? 12)%Z && (1 <=? d)%Z && (d <=? days_in_month y m)%Z then
    let day := days_from_civil y m d in
    match s5 with
    | EmptyString => Some (day * msPerDay)%Z
    | String c rest =>
        if bool_decide (c = "T"%char)
        then t ← parse_time rest; Some (day * msPerDay + t)%Z
        else None
    end
  else None.

(** [n] decimal digits of [z], zero-padded. *)
Fixpoint pad (n : nat) (z : Z) : string :=
  match n with
  | O => EmptyString
  | S n' => pad n' (z / 10)%Z +:+ String (digit_char (z mod 10)%Z) EmptyString
  end.

Definition format_year (y : Z) : string :=
  if (0 <=? y)%Z && (y <=? 9999)%Z then pad 4 y
  else if (y <? 0)%Z then "-" +:+ pad 6 (- y)%Z
  else "+" +:+ pad 6 y.

(** [Date.prototype.toISOString] on a time value:
    [YYYY-MM-DDTHH:mm:ss.sssZ]. *)
Definition toISOString (t : Z) : string :=
  let day := (t / msPerDay)%Z in
  let ms := (t mod msPerDay)%Z in
  let '(y, m, d) := civil_from_days day in
  format_year y +:+ "-" +:+ pad 2 m +:+ "-" +:+ pad 2 d +:+ "T"
    +:+ pad 2 (ms / 3600000)%Z +:+ ":" +:+ pad 2 ((ms / 60000) mod 60)%Z +:+ ":"
    +:+ pad 2 ((ms / 1000) mod 60)%Z +:+ "." +:+ pad 3 (ms mod 1000)%Z +:+ "Z".

End ISODate.

(** ** The issue-creation action ([gitlab:issues:create]) *)

(** Modelled from the spec: the enumeration behind [issueType] and its string
    forms; [createGitlabIssueAction.ts] is not among the sources, only its
    test is, which uses [IssueType.INCIDENT] and expects ['incident'].  The
    members are the ones the specification lists:
    default | incident | test_case | task. *)
Inductive IssueType := DEFAULT | INCIDENT | TEST_CASE | TASK.

Definition IssueType_value (t : IssueType) : string :=
  match t with
  | DEFAULT => "default"
  | INCIDENT => "incident"
  | TEST_CASE => "test_case"
  | TASK => "task"
  end.

(** The [input] of the action context, with the fields the test supplies and
    the optional ones the specification names. *)
Module Input.
Record t := {
  repoUrl : string;
  projectId : Q;
  title : string;
  issueType : option IssueType;
  description : option string;
  dueDate : option string;
  token : option string;
  assignees : option (list Q);
  labels : option string;
  confidential : option bool;
  epicId : option Q;
  milestoneId : option Q;
  weight : option Q;
  discussionToResolve : option string;
  mergeRequestToResolveDiscussionsOf : option Q;
}.
End Input.

(** The options record that the test expects [Issues.create] to be called
    with; [None] is [undefined]. *)
Record CreateIssueOptions := {
  issueType : option string;
  description : string;
  assigneeIds : list Q;
  confidential : bool;
  epicId : option Q;
  labels : string;
  createdAt : string;
  dueDate : option string;
  discussionToResolve : string;
  mergeRequestToResolveDiscussionsOf : option Q;
  milestoneId : option Q;
  weight : option Q;
}.

(** What the client resolves with; only [id] and [web_url] are read. *)
Record IssueResponse := {
  id_ : Q;
  web_url : string;
}.

(** One call of [Issues.create] as the mock records it, with the token the
    client was built with. *)
Record ClientCall := {
  call_token : option string;
  call_projectId : Q;
  call_title : string;
  call_options : CreateIssueOptions;
}.

Inductive ActionError :=
| DateParseError (input : string)
| TrackerClientError (reason : string).

(** What an action run leaves behind: the calls made on the client and the
    values passed to [ctx.output], both in order. *)
Record Trace := {
  clientCalls : list ClientCall;
  outputs : list (string * json);
}.

Definition emptyTrace : Trace := {| clientCalls := []; outputs := [] |}.

(** The handler is a computation that may throw and that extends the trace. *)
Definition Action (A : Type) : Type := Trace → (ActionError + A) * Trace.

#[global] Instance Action_ret : MRet Action := λ A a tr, (inr a, tr).

#[global] Instance Action_bind : MBind Action := λ A B f m tr,
  match m tr with
  | (inr a, tr') => f a tr'
  | (inl e, tr') => (inl e, tr')
  end.

Definition throw {A} (e : ActionError) : Action A := λ tr, (inl e, tr).

(** [ctx.output(name, value)] *)
Definition output (name : string) (value : json) : Action unit := λ tr,
  (inr tt, {| clientCalls := clientCalls tr; outputs := outputs tr ++ [(name, value)] |}).

Section IssueCreationAction.

(** The collaborators of the action: the client library ([Gitlab] builds a
    client for a token, whose [Issues.create] resolves or rejects), the token
    of the integration that serves the host of a [repoUrl], the clock read as
    [new Date().toISOString()], and the runtime's date parsing and
    formatting. *)
Variable Gitlab : option string → Q → string → CreateIssueOptions → string + IssueResponse.
Variable integrationToken : string → option string.
Variable nowISOString : string.
Variable Date_parse : string → option Z.
Variable Date_toISOString : Z → string.

(** [api.Issues.create(projectId, title, options)] on a client built with
    [token]: the call is recorded, a rejection is thrown on. *)
Definition Issues_create (token : option string) (projectId : Q) (title : string)
    (options : CreateIssueOptions) : Action IssueResponse := λ tr,
  let tr' := {| clientCalls := clientCalls tr ++
                  [{| call_token := token; call_projectId := projectId;
                      call_title := title; call_options := options |}];
                outputs := outputs tr |} in
  match Gitlab token projectId title options with
  | inr response => (inr response, tr')
  | inl reason => (inl (TrackerClientError reason), tr')
  end.

(** Modelled from the spec: the explicit per-call [token] takes precedence
    over the integration-level token resolved from the host of [repoUrl]. *)
Definition effectiveToken (input : Input.t) : option string :=
  match Input.token input with
  | Some t => Some t
  | None => integrationToken (Input.repoUrl input)
  end.

(** Modelled from the spec: [dueDate], if present, is normalized to full
    ISO-8601 via date parsing, and the action fails if it is unparsable. *)
Definition normalizeDueDate (dueDate : option string) : Action (option string) :=
  match dueDate with
  | None => mret None
  | Some s =>
      match Date_parse s with
      | Some t => mret (Some (Date_toISOString t))
      | None => throw (DateParseError s)
      end
  end.

(** Modelled from the spec: the options record, with the defaults of the
    absent optional fields ([description], [labels] and
    [discussionToResolve] to the empty string, [assignees] to the empty
    sequence, [confidential] to false), [issueType] mapped to its string form,
    [createdAt] set from the clock, and every other optional field passed
    through. *)
Definition buildOptions (input : Input.t) (dueDate : option string) : CreateIssueOptions :=
  {| issueType := IssueType_value <$> Input.issueType input;
     description := default EmptyString (Input.description input);
     assigneeIds := default [] (Input.assignees input);
     confidential := default false (Input.confidential input);
     epicId := Input.epicId input;
     labels := default EmptyString (Input.labels input);
     createdAt := nowISOString;
     dueDate := dueDate;
     discussionToResolve := default EmptyString (Input.discussionToResolve input);
     mergeRequestToResolveDiscussionsOf := Input.mergeRequestToResolveDiscussionsOf input;
     milestoneId := Input.milestoneId input;
     weight := Input.weight input |}.

(** The request the handler makes once the due date is settled. *)
Definition requestOf (input : Input.t) (dueDate : option string) : ClientCall :=
  {| call_token := effectiveToken input;
     call_projectId := Input.projectId input;
     call_title := Input.title input;
     call_options := buildOptions input dueDate |}.

(** Modelled from the spec: the handler of [createGitlabIssueAction], which is
    not among the sources.  It normalizes the due date, invokes the client's
    issue-creation operation once with [(projectId, title, options)], and on
    success emits [issueId] and [issueUrl] from the response; a failure of the
    date parsing or of the client is not caught. *)
Definition handler (input : Input.t) : Action unit :=
  dueDate ← normalizeDueDate (Input.dueDate input);
  response ← Issues_create (effectiveToken input) (Input.projectId input)
               (Input.title input) (buildOptions input dueDate);
  _ ← output "issueId" (JNumber (id_ response));
  output "issueUrl" (JString (web_url response)).

End IssueCreationAction.

(** The input of the first test: only [repoUrl], [projectId] and [title]. *)
Definition minimalInput (repoUrl : string) (projectId : Q) (title : string) : Input.t :=
  {| Input.repoUrl := repoUrl; Input.projectId := projectId; Input.title := title;
     Input.issueType := None; Input.description := None; Input.dueDate := None;
     Input.token := None; Input.assignees := None; Input.labels := None;
     Input.confidential := None; Input.epicId := None; Input.milestoneId := None;
     Input.weight := None; Input.discussionToResolve := None;
     Input.mergeRequestToResolveDiscussionsOf := None |}.

(** ** The manifest schema as the interface description words it *)

(** A manifest conforms when it is a JSON object whose [backstage], if
    present, is an object whose [new], if present, is an object with no key
    but [templates] and [globals]; [templates], if present, is an array of
    objects that hold a string [id], a string [target] and nothing else;
    [globals], if present, is an object whose values are strings, numbers or
    booleans. *)
Definition isString (v : option json) : bool :=
  match v with
  | Some (JString _) => true
  | _ => false
  end.

Definition templateEntryConforms (v : json) : bool :=
  match v with
  | JObject o =>
      isString (o !! "id") && isString (o !! "target")
      && bool_decide (dom o ⊆ ({["id"; "target"]} : gset string))
  | _ => false
  end.

Definition templatesConform (v : option json) : bool :=
  match v with
  | None => true
  | Some (JArray l) => forallb templateEntryConforms l
  | Some _ => false
  end.

Definition globalsConform (v : option json) : bool :=
  match v with
  | None => true
  | Some (JObject g) => bool_decide (map_Forall (λ _ x, is_Some (json_to_scalar x)) g)
  | Some _ => false
  end.

Definition newBlockConforms (v : option json) : bool :=
  match v with
  | None => true
  | Some (JObject n) =>
      templatesConform (n !! "templates") && globalsConform (n !! "globals")
      && bool_decide (dom n ⊆ ({["templates"; "globals"]} : gset string))
  | Some _ => false
  end.

Definition manifestConforms (pkgJson : json) : bool :=
  match pkgJson with
  | JObject o =>
      match o !! "backstage" with
      | None => true
      | Some (JObject b) => newBlockConforms (b !! "new")
      | Some _ => false
      end
  | _ => false
  end.

(** ** Sample inputs *)

Definition jobject (properties : list (string * json)) : json :=
  JObject (list_to_map properties).

(** A manifest that declares [globals: { baseVersion: '0.2.0' }]. *)
Definition manifestWithGlobals : json :=
  jobject [("name", JString "example");
           ("backstage", jobject [("role", JString "cli");
              ("new", jobject [("globals", jobject [("baseVersion", JString "0.2.0")])])])].

(** A manifest that declares two templates. *)
Definition manifestWithTemplates : json :=
  jobject [("backstage", jobject
    [("new", jobject
       [("templates", JArray
          [jobject [("id", JString "plugin"); ("target", JString "plugins/a")];
           jobject [("target", JString "packages/b"); ("id", JString "library")]])])])].

(** A manifest with no [backstage] block. *)
Definition manifestPlain : json :=
  jobject [("name", JString "example"); ("version", JString "1.0.0")].

(** A manifest with a template entry that has the extra key [path]. *)
Definition manifestExtraKey : json :=
  jobject [("backstage", jobject
    [("new", jobject
       [("templates", JArray
          [jobject [("id", JString "plugin"); ("target", JString "plugins/a");
                    ("path", JString "./tpl")]])])])].

(** A manifest whose [new] block has the unknown key [template]. *)
Definition manifestUnknownNewKey : json :=
  jobject [("backstage", jobject [("new", jobject [("template", JArray [])])])].

(** A manifest with a [globals] value that is an array. *)
Definition manifestBadGlobal : json :=
  jobject [("backstage", jobject
    [("new", jobject [("globals", jobject [("owners", JArray [JString "me"])])])])].

(** A manifest whose [backstage] is [null]. *)
Definition manifestNullBackstage : json :=
  jobject [("backstage", JNull)].

(** A manifest that declares a global under the key [__proto__], as
    [JSON.parse] reads it: an own property. *)
Definition manifestProtoGlobal : json :=
  jobject [("backstage", jobject
    [("new", jobject
       [("globals", jobject [("__proto__", JString "x"); ("a", JString "b")])])])].

Definition sampleOptions (overrides : option (gmap string scalar)) : LoadConfigOptions :=
  {| packagePath := None; globalOverrides := overrides |}.

Definition sampleRoot (name : string) : string := "/repo/" +:+ name.

(** A file system in which every path holds the manifest [pkgJson]. *)
Definition sampleReadJson (pkgJson : json) : string → LoadConfigError + json :=
  λ _, inr pkgJson.

Definition sampleDefaultTemplates : list TemplatePointer :=
  [{| tp_id := "frontend-plugin"; tp_target := "plugins/{{pluginId}}" |}].


(** The fixtures of the test suite: the response of the mocked client, the
    integration token of [gitlab.com], the mocked clock, and the inputs of the
    first and of the third test. *)
Definition mockResponse : IssueResponse :=
  {| id_ := 42%Q; web_url := "https://gitlab.com/hangar18-/issues/42" |}.

Definition mockGitlabClient :
    option string → Q → string → CreateIssueOptions → string + IssueResponse :=
  λ _ _ _ _, inr mockResponse.

Definition rejectingGitlabClient :
    option string → Q → string → CreateIssueOptions → string + IssueResponse :=
  λ _ _ _ _, inl "401 Unauthorized".

Definition mockIntegrationToken : string → option string :=
  λ _, Some "myIntegrationsToken".

Definition mockNow : string := "1988-06-03T12:00:00.000Z".

Definition testMinimalInput : Input.t :=
  minimalInput "gitlab.com?repo=repo&owner=owner" 123%Q "Computer banks to rule the world".

Definition testSeveralInput : Input.t :=
  {| Input.repoUrl := "gitlab.com?repo=repo&owner=owner";
     Input.projectId := 123%Q;
     Input.title := "Computer banks to rule the world";
     Input.issueType := Some INCIDENT;
     Input.description :=
       Some "this issue should kickstart research on instruments to sight the stars";
     Input.dueDate := Some "1990-08-20T23:59:59Z";
     Input.token := Some "myAwesomeToken";
     Input.assignees := Some [3%Q; 14%Q; 15%Q];
     Input.labels := Some "operation:mindcrime";
     Input.confidential := None; Input.epicId := None; Input.milestoneId := None;
     Input.weight := None; Input.discussionToResolve := None;
     Input.mergeRequestToResolveDiscussionsOf := None |}.

(** ** Notions for the further properties of the loader *)

(** Where an issue is located. *)
Definition issue_path (x : ZodIssue) : list PathElem :=
  match x with
  | invalid_type _ _ path => path
  | unrecognized_keys _ path => path
  | invalid_union _ path => path
  end.

(** A schema reports well when a rejection always holds an issue and every
    issue is located at or below the path the schema was applied at. *)
Definition reports_well {A} (schema : Parser A) : Prop :=
  ∀ v path,
    schema v path ≠ INVALID [] ∧
    ∀ x, x ∈ issues_of (schema v path) → path `prefix_of` issue_path x.

Definition absentOrObject (v : option json) : bool :=
  match v with
  | None => true
  | Some (JObject _) => true
  | Some _ => false
  end.

Definition isArray (v : json) : bool :=
  match v with
  | JArray _ => true
  | _ => false
  end.



(** More sample manifests: a template entry without [id]; a [new] that is a
    string; [templates] that is an object; [globals] that is an array; a
    [backstage] block without [new]. *)
Definition manifestMissingId : json :=
  jobject [("backstage", jobject
    [("new", jobject
       [("templates", JArray [jobject [("target", JString "plugins/a")]])])])].

Definition manifestStringNew : json :=
  jobject [("backstage", jobject [("new", JString "templates")])].

Definition manifestTemplatesObject : json :=
  jobject [("backstage", jobject [("new", jobject [("templates", jobject [])])])].

Definition manifestGlobalsArray : json :=
  jobject [("backstage", jobject [("new", jobject [("globals", JArray [])])])].

Definition manifestBackstageOnly : json :=
  jobject [("backstage", jobject [("role", JString "cli")]); ("private", JBool true)].

(** * Properties *)

(** ** Object spread *)

Lemma spread_union {A} (src : option (gmap string A)) (acc : gmap string A) :
  spread src acc = default ∅ src ∪ acc.
Proof.
  destruct src as [m|]; simpl.
  - apply (map_fold_weak_ind (λ r m', r = m' ∪ acc)).
    + by rewrite (left_id_L ∅ (∪)).
    + intros k v m' r _ ->. by rewrite insert_union_l.
  - by rewrite (left_id_L ∅ (∪)).
Qed.

Lemma spread_lookup {A} (src : option (gmap string A)) (acc : gmap string A) (k : string) :
  spread src acc !! k =
    match default ∅ src !! k with
    | Some v => Some v
    | None => acc !! k
    end.
Proof.
  rewrite spread_union, lookup_union.
  destruct (default ∅ src !! k), (acc !! k); done.
Qed.

(** ** The combinators *)

Lemma issues_of_result_map {A B} (f : A → B) (r : ParseResult A) :
  issues_of (result_map f r) = issues_of r.
Proof. by destruct r. Qed.

Lemma is_ok_result_map {A B} (f : A → B) (r : ParseResult A) :
  is_ok (result_map f r) = is_ok r.
Proof. by destruct r. Qed.

Lemma result_map_OK {A B} (f : A → B) (r : ParseResult A) (b : B) :
  result_map f r = OK b → ∃ a, r = OK a ∧ b = f a.
Proof. destruct r; naive_solver. Qed.

Lemma elem_of_issues_INVALID {A} (r : ParseResult A) (x : ZodIssue) :
  x ∈ issues_of r → ∃ issues, r = INVALID issues ∧ x ∈ issues.
Proof.
  destruct r as [a|issues]; simpl.
  - by intros ?%elem_of_nil.
  - eauto.
Qed.

Lemma issues_of_collect {A} (rs : list (ParseResult A)) :
  issues_of (collect rs) = mjoin (issues_of <$> rs).
Proof.
  induction rs as [|r rs IH]; [done|].
  change (mjoin (issues_of <$> r :: rs))
    with (issues_of r ++ mjoin (issues_of <$> rs)).
  rewrite <- IH. simpl.
  destruct r as [a|issues]; [|done].
  by destruct (collect rs).
Qed.

Lemma is_ok_collect {A} (rs : list (ParseResult A)) :
  is_ok (collect rs) = forallb is_ok rs.
Proof.
  induction rs as [|r rs IH]; [done|]. simpl.
  destruct r as [a|issues]; simpl; [|done].
  by destruct (collect rs).
Qed.

Lemma collect_OK {A} (rs : list (ParseResult A)) (xs : list A) :
  collect rs = OK xs → rs = OK <$> xs.
Proof.
  revert xs. induction rs as [|r rs IH]; intros xs; simpl.
  - by intros [= <-].
  - destruct r as [a|issues]; [|done].
    destruct (collect rs) as [ys|]; [|done].
    intros [= <-]. by rewrite (IH ys).
Qed.

Lemma zOptional_OK {A} (inner : Parser A) (v : option json) path (x : option A) :
  zOptional inner v path = OK x →
  match x with
  | None => v = None
  | Some a => is_Some v ∧ inner v path = OK a
  end.
Proof.
  destruct v as [j|]; simpl.
  - intros (a & Ha & ->)%result_map_OK. eauto.
  - by intros [= <-].
Qed.

Lemma extraKeys_nil (shapeKeys : list string) (o : gmap string json) :
  extraKeys shapeKeys o = [] ↔ ∀ k, is_Some (o !! k) → k ∈ shapeKeys.
Proof.
  unfold extraKeys. split.
  - intros Hnil k [x Hk].
    destruct (decide (k ∈ shapeKeys)) as [|Hn]; [done|].
    assert (k ∈ filter (λ k, k ∉ shapeKeys) (map_to_list o).*1) as Hin.
    { apply list_elem_of_filter. split; [done|].
      apply list_elem_of_fmap. exists (k, x). split; [done|].
      by apply elem_of_map_to_list. }
    rewrite Hnil in Hin. by apply elem_of_nil in Hin.
  - intros Hall. apply elem_of_nil_inv. intros k [Hk Hin]%list_elem_of_filter.
    apply list_elem_of_fmap in Hin as ([k' x] & -> & Hin).
    apply elem_of_map_to_list in Hin. apply Hk, Hall. by exists x.
Qed.

Lemma unknownKeysIssues_strict_nil shapeKeys o path :
  unknownKeysIssues strict shapeKeys o path = [] ↔ extraKeys shapeKeys o = [].
Proof. unfold unknownKeysIssues. by destruct (extraKeys shapeKeys o). Qed.

Lemma zObject1_OK {A B} unknownKeys k1 (s1 : Parser A) (mk : A → B) v path b :
  zObject1 unknownKeys k1 s1 mk v path = OK b →
  ∃ o a, v = Some (JObject o) ∧ s1 (o !! k1) (path ++ [PKey k1]) = OK a ∧
         unknownKeysIssues unknownKeys [k1] o path = [] ∧ b = mk a.
Proof.
  destruct v as [[| | | | |o]|]; try done. simpl.
  destruct (s1 _ _) as [a|] eqn:H1; [|done].
  destruct (unknownKeysIssues _ _ _ _) eqn:Hunk; [|done].
  intros [= <-]. by exists o, a.
Qed.

Lemma zObject2_OK {A1 A2 B} unknownKeys k1 (s1 : Parser A1) k2 (s2 : Parser A2)
    (mk : A1 → A2 → B) v path b :
  zObject2 unknownKeys k1 s1 k2 s2 mk v path = OK b →
  ∃ o a1 a2, v = Some (JObject o) ∧
    s1 (o !! k1) (path ++ [PKey k1]) = OK a1 ∧
    s2 (o !! k2) (path ++ [PKey k2]) = OK a2 ∧
    unknownKeysIssues unknownKeys [k1; k2] o path = [] ∧ b = mk a1 a2.
Proof.
  destruct v as [[| | | | |o]|]; try done. simpl.
  destruct (s1 _ _) as [a1|] eqn:H1; [|done].
  destruct (s2 _ _) as [a2|] eqn:H2; [|done].
  destruct (unknownKeysIssues _ _ _ _) eqn:Hunk; [|done].
  intros [= <-]. by exists o, a1, a2.
Qed.

Lemma issues_of_zObject1 {A B} unknownKeys k1 (s1 : Parser A) (mk : A → B) o path :
  issues_of (zObject1 unknownKeys k1 s1 mk (Some (JObject o)) path) =
    issues_of (s1 (o !! k1) (path ++ [PKey k1])) ++ unknownKeysIssues unknownKeys [k1] o path.
Proof.
  simpl. destruct (s1 _ _) as [a|]; [|done].
  by destruct (unknownKeysIssues _ _ _ _).
Qed.

Lemma issues_of_zObject2 {A1 A2 B} unknownKeys k1 (s1 : Parser A1) k2 (s2 : Parser A2)
    (mk : A1 → A2 → B) o path :
  issues_of (zObject2 unknownKeys k1 s1 k2 s2 mk (Some (JObject o)) path) =
    issues_of (s1 (o !! k1) (path ++ [PKey k1])) ++
    issues_of (s2 (o !! k2) (path ++ [PKey k2])) ++
    unknownKeysIssues unknownKeys [k1; k2] o path.
Proof.
  simpl. destruct (s1 _ _) as [a1|]; [|done].
  destruct (s2 _ _) as [a2|]; [|done].
  by destruct (unknownKeysIssues _ _ _ _).
Qed.

Lemma issues_of_zOptional {A} (inner : Parser A) (x : json) path :
  issues_of (zOptional inner (Some x) path) = issues_of (inner (Some x) path).
Proof. apply issues_of_result_map. Qed.

Lemma zString_OK v path s : zString v path = OK s → v = Some (JString s).
Proof. destruct v as [[]|]; simpl; intros [= <-] || done; done. Qed.

Lemma globalValueSchema_OK x path a :
  globalValueSchema (Some x) path = OK a → x = scalar_to_json a.
Proof. destruct x; simpl; (by intros [= <-]) || done. Qed.

Lemma globalValueSchema_is_ok x path :
  is_ok (globalValueSchema (Some x) path) = bool_decide (is_Some (json_to_scalar x)).
Proof.
  destruct x; simpl; try done;
    symmetry; apply bool_decide_eq_false; by intros [? ?].
Qed.

Lemma templatePointerSchema_OK v path tp :
  templatePointerSchema v path = OK tp → v = Some (templatePointer_to_json tp).
Proof.
  intros (o & a1 & a2 & -> & H1%zString_OK & H2%zString_OK & Hunk & ->)%zObject2_OK.
  apply unknownKeysIssues_strict_nil in Hunk.
  pose proof (proj1 (extraKeys_nil _ _) Hunk) as Hkeys.
  unfold templatePointer_to_json. simpl. do 2 f_equal. apply map_eq. intros k.
  destruct (decide (k = "id")) as [->|Hid].
  { by rewrite lookup_insert_eq. }
  rewrite lookup_insert_ne by done.
  destruct (decide (k = "target")) as [->|Htarget].
  { by rewrite lookup_insert_eq. }
  rewrite lookup_insert_ne, lookup_empty by done.
  destruct (o !! k) as [x|] eqn:Hk; [|done].
  assert (k ∈ ["id"; "target"]) as Hin by (apply Hkeys; by exists x).
  apply elem_of_cons in Hin as [->|Hin]; [done|].
  apply elem_of_cons in Hin as [->|Hin]; [done|].
  by apply elem_of_nil in Hin.
Qed.

Lemma zArray_templates_OK v path tps :
  zArray templatePointerSchema v path = OK tps →
  v = Some (JArray (templatePointer_to_json <$> tps)).
Proof.
  destruct v as [[| | | |l|]|]; try done. unfold zArray.
  intros Hc%collect_OK. do 2 f_equal.
  apply list_eq. intros i.
  apply (f_equal (lookup i)) in Hc.
  rewrite list_lookup_imap, list_lookup_fmap in Hc. rewrite list_lookup_fmap.
  destruct (l !! i) as [x|], (tps !! i) as [tp|]; try (by inversion Hc).
  assert (templatePointerSchema (Some x) (path ++ [PIndex i]) = OK tp) as Hx.
  { injection Hc as Hc. exact Hc. }
  apply templatePointerSchema_OK in Hx. by injection Hx as ->.
Qed.

Lemma mergeObject_delete {A} (pairs : list (string * A)) :
  mergeObject pairs = delete "__proto__" (list_to_map pairs).
Proof.
  unfold mergeObject. induction pairs as [|[k a] pairs IH]; simpl.
  - by rewrite delete_empty.
  - rewrite filter_cons. simpl. destruct (decide (k ≠ "__proto__")) as [Hk|Hk].
    + simpl. by rewrite IH, delete_insert_ne.
    + apply dec_stable in Hk as ->. by rewrite IH, delete_insert_eq.
Qed.

Lemma zRecord_globals_OK v path g :
  zRecord globalValueSchema v path = OK g →
  ∃ declared, v = Some (JObject (scalar_to_json <$> declared)) ∧
              g = delete "__proto__" declared.
Proof.
  destruct v as [[| | | | |o]|]; try done. unfold zRecord.
  intros (kvs & Hc%collect_OK & ->)%result_map_OK.
  exists (list_to_map kvs). split; [|apply mergeObject_delete]. do 2 f_equal.
  rewrite <- list_to_map_fmap, <- (list_to_map_to_list o) at 1. f_equal.
  apply list_eq. intros i.
  apply (f_equal (lookup i)) in Hc.
  rewrite !list_lookup_fmap in Hc. rewrite list_lookup_fmap.
  destruct (map_to_list o !! i) as [[k x]|], (kvs !! i) as [ka|];
    try (by inversion Hc).
  assert (result_map (pair k) (globalValueSchema (Some x) (path ++ [PKey k])) = OK ka)
    as Hx.
  { injection Hc as Hc. exact Hc. }
  apply result_map_OK in Hx as (a & Ha%globalValueSchema_OK & ->).
  by rewrite Ha.
Qed.

(** What a successful parse of the manifest says about the raw JSON: the
    parsed [templates] are the declared ones, the parsed [globals] are the
    declared ones but for a [__proto__] property. *)
Lemma safeParse_OK_inv pkgJson data :
  safeParse pkgJsonWithNewConfigSchema pkgJson = OK data →
  let newConfig := pj_backstage data ≫= bs_new in
  manifestTemplates pkgJson =
    (λ tps, JArray (templatePointer_to_json <$> tps)) <$> (newConfig ≫= nb_templates) ∧
  ∃ declared : option (gmap string scalar),
    json_get "globals" (manifestNewBlock pkgJson) =
      (λ g : gmap string scalar, JObject (scalar_to_json <$> g)) <$> declared ∧
    newConfig ≫= nb_globals = delete "__proto__" <$> declared.
Proof.
  unfold safeParse, pkgJsonWithNewConfigSchema, manifestTemplates, manifestNewBlock.
  intros (o & bs & [= ->] & Hbs%zOptional_OK & _ & ->)%zObject1_OK. simpl.
  destruct bs as [bs|]; simpl; [|rewrite Hbs; split; [done|by exists None]].
  destruct Hbs as [_ Hbs]. unfold backstageBlockSchema in Hbs.
  apply zObject1_OK in Hbs as (b & nb & -> & Hnb%zOptional_OK & _ & ->). simpl.
  destruct nb as [nb|]; simpl; [|rewrite Hnb; split; [done|by exists None]].
  destruct Hnb as [_ Hnb]. unfold newBlockSchema in Hnb.
  apply zObject2_OK in Hnb as (n & ts & gs & -> & Hts%zOptional_OK & Hgs%zOptional_OK & _ & ->).
  simpl. split.
  - destruct ts as [ts|]; simpl; [|done].
    destruct Hts as [_ Hts%zArray_templates_OK]. done.
  - destruct gs as [gs|]; simpl; [|by exists None].
    destruct Hgs as [_ (declared & Hgs & ->)%zRecord_globals_OK].
    by exists (Some declared).
Qed.

(** ** Validation against the schema as worded *)

Lemma extraKeys_nil_dom (k1 k2 : string) (o : gmap string json) :
  extraKeys [k1; k2] o = [] ↔ dom o ⊆ ({[k1; k2]} : gset string).
Proof.
  rewrite extraKeys_nil. split.
  - intros Hall k Hk%elem_of_dom. specialize (Hall k Hk).
    apply elem_of_cons in Hall as [->|Hall]; [set_solver|].
    apply elem_of_cons in Hall as [->|Hall]; [set_solver|].
    by apply elem_of_nil in Hall.
  - intros Hsub k Hk%elem_of_dom. apply Hsub in Hk.
    apply elem_of_union in Hk as [->%elem_of_singleton| ->%elem_of_singleton].
    + apply list_elem_of_here.
    + apply list_elem_of_further, list_elem_of_here.
Qed.

Lemma is_ok_zObject1_strip {A B} k1 (s1 : Parser A) (mk : A → B) o path :
  is_ok (zObject1 strip k1 s1 mk (Some (JObject o)) path) =
    is_ok (s1 (o !! k1) (path ++ [PKey k1])).
Proof. simpl. by destruct (s1 _ _). Qed.

Lemma is_ok_zObject2_strict {A1 A2 B} k1 (s1 : Parser A1) k2 (s2 : Parser A2)
    (mk : A1 → A2 → B) o path :
  is_ok (zObject2 strict k1 s1 k2 s2 mk (Some (JObject o)) path) =
    is_ok (s1 (o !! k1) (path ++ [PKey k1])) &&
    is_ok (s2 (o !! k2) (path ++ [PKey k2])) &&
    bool_decide (dom o ⊆ ({[k1; k2]} : gset string)).
Proof.
  rewrite <- (bool_decide_ext _ _ (extraKeys_nil_dom k1 k2 o)). simpl.
  destruct (s1 _ _); [|done]. destruct (s2 _ _); [|done]. simpl.
  by destruct (extraKeys _ _).
Qed.

Lemma is_ok_zOptional {A} (inner : Parser A) v path :
  is_ok (zOptional inner v path) =
    match v with
    | None => true
    | Some _ => is_ok (inner v path)
    end.
Proof. destruct v; [apply is_ok_result_map|done]. Qed.

Lemma is_ok_zString v path : is_ok (zString v path) = isString v.
Proof. by destruct v as [[]|]. Qed.

Lemma is_ok_templatePointerSchema x path :
  is_ok (templatePointerSchema (Some x) path) = templateEntryConforms x.
Proof.
  destruct x; try done. unfold templatePointerSchema.
  by rewrite is_ok_zObject2_strict, !is_ok_zString.
Qed.

Lemma forallb_imap {A B} (f : nat → A → B) (g : B → bool) (h : A → bool) (l : list A) :
  (∀ i x, g (f i x) = h x) → forallb g (imap f l) = forallb h l.
Proof.
  revert f. induction l as [|x l IH]; intros f Hf; [done|]. simpl.
  rewrite Hf. f_equal. apply IH. intros i y. apply Hf.
Qed.

Lemma is_ok_templates v path :
  is_ok (zOptional (zArray templatePointerSchema) v path) = templatesConform v.
Proof.
  rewrite is_ok_zOptional. destruct v as [[| | | |l|]|]; try done.
  unfold zArray. rewrite is_ok_collect. apply forallb_imap.
  intros i x. apply is_ok_templatePointerSchema.
Qed.

Lemma is_ok_globals v path :
  is_ok (zOptional (zRecord globalValueSchema) v path) = globalsConform v.
Proof.
  rewrite is_ok_zOptional. destruct v as [[| | | | |g]|]; try done.
  unfold zRecord, globalsConform. rewrite is_ok_result_map, is_ok_collect.
  apply Bool.eq_iff_eq_true. rewrite bool_decide_eq_true, map_Forall_to_list.
  induction (map_to_list g) as [|[k x] l IH]; simpl.
  - split; [constructor|done].
  - rewrite is_ok_result_map, globalValueSchema_is_ok, Forall_cons.
    rewrite andb_true_iff, bool_decide_eq_true, IH. done.
Qed.

Lemma is_ok_newBlock v path :
  is_ok (zOptional newBlockSchema v path) = newBlockConforms v.
Proof.
  rewrite is_ok_zOptional. destruct v as [[| | | | |n]|]; try done.
  unfold newBlockSchema.
  by rewrite is_ok_zObject2_strict, is_ok_templates, is_ok_globals.
Qed.

(** The schema accepts exactly the manifests that conform. *)
Lemma safeParse_is_ok pkgJson :
  is_ok (safeParse pkgJsonWithNewConfigSchema pkgJson) = manifestConforms pkgJson.
Proof.
  destruct pkgJson as [| | | | |o]; try done.
  unfold safeParse, pkgJsonWithNewConfigSchema, manifestConforms.
  rewrite is_ok_zObject1_strip, is_ok_zOptional.
  destruct (o !! "backstage") as [[| | | | |b]|]; try done.
  unfold backstageBlockSchema.
  by rewrite is_ok_zObject1_strip, is_ok_newBlock.
Qed.

(** The issue that an unknown key of a template entry raises. *)
Lemma templates_extra_key_issue pkgJson ts i e k :
  manifestTemplates pkgJson = Some (JArray ts) →
  ts !! i = Some (JObject e) →
  is_Some (e !! k) → k ≠ "id" → k ≠ "target" →
  ∃ ks,
    unrecognized_keys ks [PKey "backstage"; PKey "new"; PKey "templates"; PIndex i]
      ∈ issues_of (safeParse pkgJsonWithNewConfigSchema pkgJson) ∧
    k ∈ ks.
Proof.
  unfold manifestTemplates, manifestNewBlock.
  destruct pkgJson as [| | | | |o]; try done. simpl.
  destruct (o !! "backstage") as [[| | | | |b]|] eqn:Hb; try done. simpl.
  destruct (b !! "new") as [[| | | | |n]|] eqn:Hn; try done. simpl.
  intros Hts Hi [x Hk] Hid Htarget.
  assert (k ∈ extraKeys ["id"; "target"] e) as Hin.
  { apply list_elem_of_filter. split.
    - intros Hin. apply elem_of_cons in Hin as [->|Hin]; [done|].
      apply elem_of_cons in Hin as [->|Hin]; [done|]. by apply elem_of_nil in Hin.
    - apply list_elem_of_fmap. exists (k, x). split; [done|].
      by apply elem_of_map_to_list. }
  exists (extraKeys ["id"; "target"] e). split; [|done].
  unfold safeParse, pkgJsonWithNewConfigSchema.
  rewrite issues_of_zObject1, Hb, issues_of_zOptional.
  unfold backstageBlockSchema.
  rewrite issues_of_zObject1, Hn, issues_of_zOptional.
  unfold newBlockSchema.
  rewrite issues_of_zObject2, Hts, issues_of_zOptional.
  do 3 (apply elem_of_app; left).
  unfold zArray. rewrite issues_of_collect.
  apply list_elem_of_join.
  exists (issues_of (templatePointerSchema (Some (JObject e))
                       ([PKey "backstage"; PKey "new"; PKey "templates"; PIndex i]))).
  split.
  - unfold templatePointerSchema. rewrite issues_of_zObject2.
    do 2 (apply elem_of_app; right).
    unfold unknownKeysIssues.
    destruct (extraKeys ["id"; "target"] e) as [|k' ks]; [by apply elem_of_nil in Hin|].
    apply list_elem_of_here.
  - apply list_elem_of_fmap. eexists. split; [reflexivity|].
    apply (list_elem_of_lookup_2 _ i). by rewrite list_lookup_imap, Hi.
Qed.

(** ** loadConfig *)

Section LoadConfigProperties.

Context (readJson : string → LoadConfigError + json)
        (resolveTargetRoot : string → string)
        (defaultTemplates : list TemplatePointer).

(** A returned configuration comes from a manifest that was read and that
    validated, and is built from the parsed data. *)
Lemma loadConfig_inr options cfg :
  loadConfig readJson resolveTargetRoot defaultTemplates options = inr cfg →
  ∃ pkgJson data,
    readJson (pkgPathOf resolveTargetRoot options) = inr pkgJson ∧
    safeParse pkgJsonWithNewConfigSchema pkgJson = OK data ∧
    let newConfig := pj_backstage data ≫= bs_new in
    isUsingDefaultTemplates cfg = not_array (newConfig ≫= nb_templates) ∧
    templatePointers cfg = default defaultTemplates (newConfig ≫= nb_templates) ∧
    globals cfg =
      overlay (overlay defaultGlobals (default ∅ (newConfig ≫= nb_globals)))
        (default ∅ (globalOverrides options)).
Proof.
  unfold loadConfig. intros H.
  destruct (readJson _) as [e|pkgJson] eqn:Hread; [done|].
  destruct (safeParse _ _) as [data|issues] eqn:Hparse; [|done].
  injection H as <-. exists pkgJson, data.
  cbn [isUsingDefaultTemplates templatePointers globals].
  repeat split; try done.
  rewrite !spread_union.
  change (map_fold _ ∅ defaultGlobals) with (spread (Some defaultGlobals) ∅).
  rewrite spread_union. unfold overlay. cbn [default].
  by rewrite (right_id_L ∅ (∪)).
Qed.

(** A manifest that validates is loaded, one that does not is rejected with
    the [ForwardedError] that names its path and wraps the issues. *)
Lemma loadConfig_validated options pkgJson :
  readJson (pkgPathOf resolveTargetRoot options) = inr pkgJson →
  match safeParse pkgJsonWithNewConfigSchema pkgJson with
  | OK _ => ∃ cfg, loadConfig readJson resolveTargetRoot defaultTemplates options = inr cfg
  | INVALID issues =>
      loadConfig readJson resolveTargetRoot defaultTemplates options =
        inl (ForwardedError
               ("Failed to load templating configuration from '"
                  +:+ pkgPathOf resolveTargetRoot options +:+ "'")
               (fromZodError issues))
  end.
Proof.
  intros Hread. unfold loadConfig. rewrite Hread.
  destruct (safeParse _ _); eauto.
Qed.



(** C10: the [globals] of every returned configuration hold the keys
    [license], [baseVersion] and [private], whatever the manifest and the
    overrides put under them; a manifest with no [backstage] block is loaded
    and is no exception. *)
Theorem C10_default_keys_present options :
  (∀ cfg, loadConfig readJson resolveTargetRoot defaultTemplates options = inr cfg →
     is_Some (globals cfg !! "license") ∧
     is_Some (globals cfg !! "baseVersion") ∧
     is_Some (globals cfg !! "private")) ∧
  (∀ o, readJson (pkgPathOf resolveTargetRoot options) = inr (JObject o) →
     o !! "backstage" = None →
     ∃ cfg, loadConfig readJson resolveTargetRoot defaultTemplates options = inr cfg ∧
       is_Some (globals cfg !! "license") ∧
       is_Some (globals cfg !! "baseVersion") ∧
       is_Some (globals cfg !! "private")).
Proof.
  assert (∀ cfg, loadConfig readJson resolveTargetRoot defaultTemplates options = inr cfg →
     is_Some (globals cfg !! "license") ∧
     is_Some (globals cfg !! "baseVersion") ∧
     is_Some (globals cfg !! "private")) as Hkeys.
  { intros cfg (pkgJson & data & _ & _ & _ & _ & ->)%loadConfig_inr.
    unfold overlay.
    repeat split; rewrite !lookup_union_is_Some; right; right; by eexists. }
  split; [done|].
  intros o Hread Hnone.
  pose proof (loadConfig_validated options _ Hread) as Hload.
  unfold safeParse, pkgJsonWithNewConfigSchema in Hload.
  cbn [zObject1 unknownKeysIssues] in Hload. rewrite Hnone in Hload.
  simpl in Hload. destruct Hload as [cfg Hcfg]. eauto.
Qed.

(** C2: a manifest that validates and has no [backstage.new.templates] array
    is loaded with [isUsingDefaultTemplates] true and the built-in default
    templates as [templatePointers]. *)
Theorem C2_default_templates options pkgJson cfg :
  readJson (pkgPathOf resolveTargetRoot options) = inr pkgJson →
  loadConfig readJson resolveTargetRoot defaultTemplates options = inr cfg →
  (∀ l, manifestTemplates pkgJson ≠ Some (JArray l)) →
  isUsingDefaultTemplates cfg = true ∧ templatePointers cfg = defaultTemplates.
Proof.
  intros Hread (pkgJson' & data & Hread' & Hparse & -> & -> & _)%loadConfig_inr Hnone.
  assert (pkgJson' = pkgJson) as -> by congruence.
  apply safeParse_OK_inv in Hparse as [Hts _].
  destruct ((pj_backstage data ≫= bs_new) ≫= nb_templates) as [tps|]; [|done].
  by destruct (Hnone _ Hts).
Qed.

(** C3: a manifest that validates and declares a [backstage.new.templates]
    array, the empty one included, is loaded with [isUsingDefaultTemplates]
    false and with the declared entries, in their order, as
    [templatePointers]. *)
Theorem C3_declared_templates options pkgJson cfg l :
  readJson (pkgPathOf resolveTargetRoot options) = inr pkgJson →
  loadConfig readJson resolveTargetRoot defaultTemplates options = inr cfg →
  manifestTemplates pkgJson = Some (JArray l) →
  isUsingDefaultTemplates cfg = false ∧
  templatePointer_to_json <$> templatePointers cfg = l ∧
  length (templatePointers cfg) = length l ∧
  (l = [] → templatePointers cfg = []).
Proof.
  intros Hread (pkgJson' & data & Hread' & Hparse & -> & -> & _)%loadConfig_inr Hsome.
  assert (pkgJson' = pkgJson) as -> by congruence.
  apply safeParse_OK_inv in Hparse as [Hts _]. rewrite Hsome in Hts.
  destruct ((pj_backstage data ≫= bs_new) ≫= nb_templates) as [tps|]; [|done].
  injection Hts as ->. simpl. rewrite length_fmap.
  repeat split; try done. by intros ?%fmap_nil_inv.
Qed.

(** C4: a manifest with a [backstage.new.templates] entry that holds a key
    other than [id] and [target] is not loaded: [loadConfig] throws the
    [ForwardedError] (the specification's ConfigValidationError) whose message
    names the manifest path and whose cause wraps the schema issues, the
    unrecognized key of that entry among them. *)
Theorem C4_extra_template_key_rejected options pkgJson ts i e k :
  readJson (pkgPathOf resolveTargetRoot options) = inr pkgJson →
  manifestTemplates pkgJson = Some (JArray ts) →
  ts !! i = Some (JObject e) →
  is_Some (e !! k) → k ≠ "id" → k ≠ "target" →
  ∃ issues ks,
    loadConfig readJson resolveTargetRoot defaultTemplates options =
      inl (ForwardedError
             ("Failed to load templating configuration from '"
                +:+ pkgPathOf resolveTargetRoot options +:+ "'")
             (fromZodError issues)) ∧
    unrecognized_keys ks [PKey "backstage"; PKey "new"; PKey "templates"; PIndex i]
      ∈ details (fromZodError issues) ∧
    k ∈ ks.
Proof.
  intros Hread Hts Hi Hk Hid Htarget.
  destruct (templates_extra_key_issue _ _ _ _ _ Hts Hi Hk Hid Htarget)
    as (ks & Hissue & Hin).
  apply elem_of_issues_INVALID in Hissue as (issues & Hparse & Hissue).
  pose proof (loadConfig_validated options _ Hread) as Hload.
  rewrite Hparse in Hload. by exists issues, ks.
Qed.

(** C5, with the conditions on the enclosing objects spelled out: a manifest
    that was read is loaded iff it is an object whose [backstage], if present,
    is an object and whose [backstage.new], if present, conforms to the
    strict schema; a [backstage.new] object with a
    key other than [templates] and [globals] is rejected, and so is a
    [backstage.new.globals] with a value that is not a string, a number or a
    boolean. *)
Theorem C5_validation_strict options pkgJson :
  readJson (pkgPathOf resolveTargetRoot options) = inr pkgJson →
  ((∃ cfg,
    loadConfig readJson resolveTargetRoot defaultTemplates options = inr cfg)
   ↔ manifestConforms pkgJson = true) ∧
  (∀ n k,
     manifestNewBlock pkgJson = Some (JObject n) →
     is_Some (n !! k) → k ≠ "templates" → k ≠ "globals" →
     ∃ cause,
       loadConfig readJson resolveTargetRoot defaultTemplates options =
         inl (ForwardedError
                ("Failed to load templating configuration from '"
                   +:+ pkgPathOf resolveTargetRoot options +:+ "'") cause)) ∧
  (∀ g k x,
     json_get "globals" (manifestNewBlock pkgJson) = Some (JObject g) →
     g !! k = Some x → json_to_scalar x = None →
     ∃ cause,
       loadConfig readJson resolveTargetRoot defaultTemplates options =
         inl (ForwardedError
                ("Failed to load templating configuration from '"
                   +:+ pkgPathOf resolveTargetRoot options +:+ "'") cause)).
Proof.
  intros Hread.
  pose proof (loadConfig_validated options _ Hread) as Hload.
  pose proof (safeParse_is_ok pkgJson) as Hok.
  assert (manifestConforms pkgJson = false →
          ∃ cause, loadConfig readJson resolveTargetRoot defaultTemplates options =
            inl (ForwardedError
                   ("Failed to load templating configuration from '"
                      +:+ pkgPathOf resolveTargetRoot options +:+ "'") cause)) as Hreject.
  { intros Hfalse. rewrite Hfalse in Hok.
    destruct (safeParse _ _) as [data|issues]; [done|]. eauto. }
  split; [|split].
  - destruct (safeParse _ _) as [data|issues]; simpl in Hok; rewrite <- Hok.
    + by split.
    + split; [|done]. intros [cfg Hcfg]. congruence.
  - intros n k Hn Hk Ht Hg. apply Hreject.
    unfold manifestNewBlock in Hn.
    destruct pkgJson as [| | | | |o]; try done. simpl in *.
    destruct (o !! "backstage") as [[| | | | |b]|]; try done. simpl in *.
    rewrite Hn. simpl.
    apply andb_false_intro2, bool_decide_eq_false. intros Hsub.
    apply elem_of_dom in Hk. apply Hsub in Hk.
    by apply elem_of_union in Hk as [Hk%elem_of_singleton|Hk%elem_of_singleton].
  - intros g k x Hgl Hk Hx. apply Hreject.
    unfold manifestNewBlock in Hgl.
    destruct pkgJson as [| | | | |o]; try done. simpl in *.
    destruct (o !! "backstage") as [[| | | | |b]|]; try done. simpl in *.
    destruct (b !! "new") as [[| | | | |n]|]; try done. simpl in *.
    rewrite Hgl. simpl.
    apply andb_false_intro1, andb_false_intro2, bool_decide_eq_false.
    intros Hall. specialize (Hall k x Hk). simpl in Hall.
    rewrite Hx in Hall. by destruct Hall.
Qed.

End LoadConfigProperties.


Lemma C10_default_keys_present_witness :
  ∃ cfg,
    loadConfig (sampleReadJson manifestPlain) sampleRoot sampleDefaultTemplates
      (sampleOptions None) = inr cfg ∧
    is_Some (globals cfg !! "license") ∧
    is_Some (globals cfg !! "baseVersion") ∧
    is_Some (globals cfg !! "private").
Proof.
  apply (proj2 (C10_default_keys_present (sampleReadJson manifestPlain) sampleRoot
                  sampleDefaultTemplates (sampleOptions None))
           (list_to_map [("name", JString "example"); ("version", JString "1.0.0")])).
  - reflexivity.
  - vm_compute; reflexivity.
Defined.

Lemma C2_default_templates_witness :
  ∃ cfg,
    loadConfig (sampleReadJson manifestWithGlobals) sampleRoot sampleDefaultTemplates
      (sampleOptions None) = inr cfg ∧
    isUsingDefaultTemplates cfg = true ∧
    templatePointers cfg = sampleDefaultTemplates.
Proof.
  eexists. split; [vm_compute; reflexivity|].
  eapply (C2_default_templates (sampleReadJson manifestWithGlobals) sampleRoot
            sampleDefaultTemplates (sampleOptions None) manifestWithGlobals).
  - reflexivity.
  - vm_compute; reflexivity.
  - intros l. vm_compute. discriminate.
Defined.

Lemma C3_declared_templates_witness :
  ∃ cfg,
    loadConfig (sampleReadJson manifestWithTemplates) sampleRoot sampleDefaultTemplates
      (sampleOptions None) = inr cfg ∧
    isUsingDefaultTemplates cfg = false ∧
    templatePointers cfg =
      [{| tp_id := "plugin"; tp_target := "plugins/a" |};
       {| tp_id := "library"; tp_target := "packages/b" |}].
Proof.
  eexists. split; [vm_compute; reflexivity|].
  split; [|reflexivity].
  eapply (C3_declared_templates (sampleReadJson manifestWithTemplates) sampleRoot
            sampleDefaultTemplates (sampleOptions None) manifestWithTemplates).
  - reflexivity.
  - vm_compute; reflexivity.
  - vm_compute; reflexivity.
Defined.

Lemma C4_extra_template_key_rejected_witness :
  ∃ issues ks,
    loadConfig (sampleReadJson manifestExtraKey) sampleRoot sampleDefaultTemplates
      (sampleOptions None) =
      inl (ForwardedError
             "Failed to load templating configuration from '/repo/package.json'"
             (fromZodError issues)) ∧
    unrecognized_keys ks [PKey "backstage"; PKey "new"; PKey "templates"; PIndex 0]
      ∈ details (fromZodError issues) ∧
    "path" ∈ ks.
Proof.
  eapply (C4_extra_template_key_rejected (sampleReadJson manifestExtraKey) sampleRoot
            sampleDefaultTemplates (sampleOptions None) manifestExtraKey
            _ 0 _ "path").
  - reflexivity.
  - vm_compute; reflexivity.
  - reflexivity.
  - vm_compute. eexists; reflexivity.
  - discriminate.
  - discriminate.
Defined.

Lemma C5_validation_strict_witness :
  (∃ cfg,
     loadConfig (sampleReadJson manifestWithTemplates) sampleRoot sampleDefaultTemplates
       (sampleOptions None) = inr cfg) ∧
  (∃ cause,
     loadConfig (sampleReadJson manifestUnknownNewKey) sampleRoot sampleDefaultTemplates
       (sampleOptions None) =
       inl (ForwardedError
              "Failed to load templating configuration from '/repo/package.json'" cause)) ∧
  (∃ cause,
     loadConfig (sampleReadJson manifestBadGlobal) sampleRoot sampleDefaultTemplates
       (sampleOptions None) =
       inl (ForwardedError
              "Failed to load templating configuration from '/repo/package.json'" cause)).
Proof.
  split; [|split].
  - apply (C5_validation_strict (sampleReadJson manifestWithTemplates) sampleRoot
             sampleDefaultTemplates (sampleOptions None) manifestWithTemplates eq_refl).
    vm_compute; reflexivity.
  - eapply (proj1 (proj2 (C5_validation_strict (sampleReadJson manifestUnknownNewKey)
                     sampleRoot sampleDefaultTemplates (sampleOptions None)
                     manifestUnknownNewKey eq_refl)) _ "template").
    + vm_compute; reflexivity.
    + vm_compute. eexists; reflexivity.
    + discriminate.
    + discriminate.
  - eapply (proj2 (proj2 (C5_validation_strict (sampleReadJson manifestBadGlobal)
                     sampleRoot sampleDefaultTemplates (sampleOptions None)
                     manifestBadGlobal eq_refl)) _ "owners").
    + vm_compute; reflexivity.
    + vm_compute; reflexivity.
    + reflexivity.
Defined.

(** C1 as stated fails: the manifest that declares the globals
    [{"__proto__": "x", "a": "b"}] is loaded, and the returned globals hold
    [a] but nothing under [__proto__], so they are not the overlay of the
    defaults, the declared globals and the overrides. *)
Lemma C1_counterexample :
  ¬ (∀ cfg,
       loadConfig (sampleReadJson manifestProtoGlobal) sampleRoot sampleDefaultTemplates
         (sampleOptions None) = inr cfg →
       globals cfg =
         overlay (overlay defaultGlobals (manifestGlobals manifestProtoGlobal))
           (default ∅ (globalOverrides (sampleOptions None)))).
Proof.
  intros Hclaim.
  pose proof (Hclaim _ eq_refl) as Heq.
  apply (f_equal (lookup "__proto__")) in Heq.
  vm_compute in Heq. discriminate Heq.
Qed.

(** C5 as stated fails: the manifest [{"backstage": null}] has no
    [backstage.new] block, so that block conforms as an optional one, yet the
    manifest is rejected. *)
Lemma C5_counterexample :
  ¬ ((∃ cfg,
        loadConfig (sampleReadJson manifestNullBackstage) sampleRoot
          sampleDefaultTemplates (sampleOptions None) = inr cfg)
     ↔ newBlockConforms (manifestNewBlock manifestNullBackstage) = true).
Proof.
  intros [_ Haccept].
  destruct Haccept as [cfg Hcfg]; [vm_compute; reflexivity|].
  vm_compute in Hcfg. discriminate.
Qed.

(** ** The issue-creation action *)

Section IssueCreationActionProperties.

Context (Gitlab : option string → Q → string → CreateIssueOptions → string + IssueResponse)
        (integrationToken : string → option string)
        (nowISOString : string)
        (Date_parse : string → option Z)
        (Date_toISOString : Z → string).

(** A run of the handler from the empty trace, spelled out. *)
Lemma handler_run input :
  handler Gitlab integrationToken nowISOString Date_parse Date_toISOString
    input emptyTrace =
    match normalizeDueDate Date_parse Date_toISOString (Input.dueDate input) emptyTrace with
    | (inl e, _) => (inl e, emptyTrace)
    | (inr due, _) =>
        match Gitlab (effectiveToken integrationToken input) (Input.projectId input)
                (Input.title input) (buildOptions nowISOString input due) with
        | inl reason =>
            (inl (TrackerClientError reason),
             {| clientCalls := [requestOf integrationToken nowISOString input due];
                outputs := [] |})
        | inr response =>
            (inr tt,
             {| clientCalls := [requestOf integrationToken nowISOString input due];
                outputs := [("issueId", JNumber (id_ response));
                            ("issueUrl", JString (web_url response))] |})
        end
    end.
Proof.
  unfold handler, normalizeDueDate.
  destruct (Input.dueDate input) as [s|]; [destruct (Date_parse s) as [t|]|];
    try done; unfold mbind, Action_bind, mret, Action_ret, Issues_create; simpl;
    by destruct (Gitlab _ _ _ _).
Qed.

Lemma normalizeDueDate_run due :
  normalizeDueDate Date_parse Date_toISOString due emptyTrace =
    match due with
    | None => (inr None, emptyTrace)
    | Some s =>
        match Date_parse s with
        | Some t => (inr (Some (Date_toISOString t)), emptyTrace)
        | None => (inl (DateParseError s), emptyTrace)
        end
    end.
Proof. destruct due as [s|]; [|done]. simpl. by destruct (Date_parse s). Qed.

(** The third test of the suite, replayed on the model: the input with
    several parameters reaches the mocked client as the test expects. *)
Lemma handler_several_params_test :
  handler mockGitlabClient mockIntegrationToken mockNow ISODate.parse ISODate.toISOString
    testSeveralInput emptyTrace =
    (inr tt,
     {| clientCalls :=
          [{| call_token := Some "myAwesomeToken";
              call_projectId := 123%Q;
              call_title := "Computer banks to rule the world";
              call_options :=
                {| issueType := Some "incident";
                   description :=
                     "this issue should kickstart research on instruments to sight the stars";
                   assigneeIds := [3%Q; 14%Q; 15%Q];
                   confidential := false; epicId := None;
                   labels := "operation:mindcrime";
                   createdAt := mockNow;
                   dueDate := Some "1990-08-20T23:59:59.000Z";
                   discussionToResolve := "";
                   mergeRequestToResolveDiscussionsOf := None; milestoneId := None;
                   weight := None |} |}];
        outputs := [("issueId", JNumber 42%Q);
                    ("issueUrl", JString "https://gitlab.com/hangar18-/issues/42")] |}).
Proof. reflexivity. Qed.

(** C6: on an input that holds only [repoUrl], [projectId] and [title], the
    handler calls the client's issue creation exactly once with
    [(projectId, title, options)], the options carrying [description: ''],
    [assigneeIds: []], [confidential: false], [labels: ''],
    [discussionToResolve: ''] and [issueType: undefined]; when the call
    resolves it emits exactly [issueId], the response's [id], and [issueUrl],
    the response's [web_url]. *)
Theorem C6_minimal_input repoUrl projectId title response :
  let input := minimalInput repoUrl projectId title in
  let options :=
    {| issueType := None; description := ""; assigneeIds := []; confidential := false;
       epicId := None; labels := ""; createdAt := nowISOString; dueDate := None;
       discussionToResolve := ""; mergeRequestToResolveDiscussionsOf := None;
       milestoneId := None; weight := None |} in
  Gitlab (integrationToken repoUrl) projectId title options = inr response →
  handler Gitlab integrationToken nowISOString Date_parse Date_toISOString input emptyTrace =
    (inr tt,
     {| clientCalls := [{| call_token := integrationToken repoUrl;
                           call_projectId := projectId;
                           call_title := title;
                           call_options := options |}];
        outputs := [("issueId", JNumber (id_ response));
                    ("issueUrl", JString (web_url response))] |}).
Proof.
  intros input options Hcreate. rewrite handler_run, normalizeDueDate_run. simpl.
  change (buildOptions nowISOString input None) with options.
  change (effectiveToken integrationToken input) with (integrationToken repoUrl).
  by rewrite Hcreate.
Qed.



(** C9: when the client's create call rejects, the handler fails with that
    rejection, has called the client once and no more, and has not invoked
    [output]; in no failing run is [output] invoked. *)
Theorem C9_client_rejection input due reason :
  normalizeDueDate Date_parse Date_toISOString (Input.dueDate input) emptyTrace
    = (inr due, emptyTrace) →
  Gitlab (effectiveToken integrationToken input) (Input.projectId input) (Input.title input)
    (buildOptions nowISOString input due) = inl reason →
  handler Gitlab integrationToken nowISOString Date_parse Date_toISOString input emptyTrace =
    (inl (TrackerClientError reason),
     {| clientCalls := [requestOf integrationToken nowISOString input due]; outputs := [] |}) ∧
  (∀ input' e, (handler Gitlab integrationToken nowISOString
      Date_parse Date_toISOString input' emptyTrace).1 = inl e →
     outputs (handler Gitlab integrationToken nowISOString
         Date_parse Date_toISOString input' emptyTrace).2 = [] ∧
     length (clientCalls (handler Gitlab integrationToken nowISOString
         Date_parse Date_toISOString input' emptyTrace).2) ≤ 1).
Proof.
  intros Hdue Hcreate. split.
  - by rewrite handler_run, Hdue, Hcreate.
  - clear Hdue Hcreate. intros input' e. rewrite handler_run, normalizeDueDate_run.
    destruct (Input.dueDate input') as [s|]; [destruct (Date_parse s) as [t|]|];
      try (intros _; split; [done|simpl; lia]);
      destruct (Gitlab _ _ _ _); simpl; intros He; try discriminate He;
      (split; [done|lia]).
Qed.

End IssueCreationActionProperties.

Lemma C6_minimal_input_witness :
  handler mockGitlabClient mockIntegrationToken mockNow ISODate.parse ISODate.toISOString
    testMinimalInput emptyTrace =
    (inr tt,
     {| clientCalls :=
          [{| call_token := Some "myIntegrationsToken";
              call_projectId := 123%Q;
              call_title := "Computer banks to rule the world";
              call_options :=
                {| issueType := None; description := ""; assigneeIds := [];
                   confidential := false; epicId := None; labels := "";
                   createdAt := mockNow; dueDate := None; discussionToResolve := "";
                   mergeRequestToResolveDiscussionsOf := None; milestoneId := None;
                   weight := None |} |}];
        outputs := [("issueId", JNumber 42%Q);
                    ("issueUrl", JString "https://gitlab.com/hangar18-/issues/42")] |}).
Proof.
  apply (C6_minimal_input mockGitlabClient mockIntegrationToken mockNow
           ISODate.parse ISODate.toISOString
           "gitlab.com?repo=repo&owner=owner" 123%Q
           "Computer banks to rule the world" mockResponse).
  reflexivity.
Defined.



Lemma C9_client_rejection_witness :
  handler rejectingGitlabClient mockIntegrationToken mockNow
    ISODate.parse ISODate.toISOString testMinimalInput emptyTrace =
    (inl (TrackerClientError "401 Unauthorized"),
     {| clientCalls :=
          [{| call_token := Some "myIntegrationsToken";
              call_projectId := 123%Q;
              call_title := "Computer banks to rule the world";
              call_options :=
                buildOptions mockNow testMinimalInput None |}];
        outputs := [] |}).
Proof.
  apply (proj1 (C9_client_rejection rejectingGitlabClient mockIntegrationToken mockNow
                  ISODate.parse ISODate.toISOString testMinimalInput None
                  "401 Unauthorized" eq_refl eq_refl)).
Defined.

(** * Further properties of the loader *)

(** ** Every rejection is reported, and reported in place *)

Lemma reports_well_zString : reports_well zString.
Proof.
  intros v path. split; [by destruct v as [[]|]|].
  destruct v as [[]|]; simpl; intros x Hx; try (by apply elem_of_nil in Hx);
    apply list_elem_of_singleton in Hx as ->; reflexivity.
Qed.

Lemma reports_well_globalValueSchema : reports_well globalValueSchema.
Proof.
  intros v path. split; [by destruct v as [[]|]|].
  destruct v as [[]|]; simpl; intros x Hx; try (by apply elem_of_nil in Hx);
    apply list_elem_of_singleton in Hx as ->; reflexivity.
Qed.

Lemma reports_well_zOptional {A} (inner : Parser A) :
  reports_well inner → reports_well (zOptional inner).
Proof.
  intros Hinner v path. destruct v as [x|]; simpl.
  - destruct (Hinner (Some x) path) as [Hne Hpath]. split.
    + destruct (inner (Some x) path); simpl; [discriminate|].
      intros [= ->]. by apply Hne.
    + intros y. rewrite issues_of_result_map. apply Hpath.
  - split; [done|]. by intros y ?%elem_of_nil.
Qed.

Lemma collect_not_empty {A} (rs : list (ParseResult A)) :
  (∀ r, r ∈ rs → r ≠ INVALID []) → collect rs ≠ INVALID [].
Proof.
  induction rs as [|r rs IH]; intros Hrs; [done|]. simpl.
  assert (r ≠ INVALID []) as Hr by (apply Hrs, list_elem_of_here).
  assert (collect rs ≠ INVALID []) as Hc.
  { apply IH. intros r' Hin. by apply Hrs, list_elem_of_further. }
  destruct r as [a|issues]; simpl.
  - destruct (collect rs) as [xs|issues]; [done|]. simpl. congruence.
  - intros [= Happ]. apply app_eq_nil in Happ as [-> _]. done.
Qed.

Lemma elem_of_issues_collect {A} (rs : list (ParseResult A)) x :
  x ∈ issues_of (collect rs) ↔ ∃ r, r ∈ rs ∧ x ∈ issues_of r.
Proof.
  rewrite issues_of_collect, list_elem_of_join. split.
  - intros (l & Hx & (r & -> & Hr)%list_elem_of_fmap). eauto.
  - intros (r & Hr & Hx). exists (issues_of r). split; [done|].
    apply list_elem_of_fmap. eauto.
Qed.

Lemma prefix_snoc_l {A} (l : list A) a k : l ++ [a] `prefix_of` k → l `prefix_of` k.
Proof. apply prefix_app_l. Qed.

Lemma reports_well_zArray {A} (element : Parser A) :
  reports_well element → reports_well (zArray element).
Proof.
  intros He v path.
  destruct v as [[| | | |l|]|]; simpl;
    try (split; [done|]; intros x ->%list_elem_of_singleton; reflexivity).
  split.
  - apply collect_not_empty. intros r Hr.
    apply list_elem_of_lookup in Hr as [i Hr].
    rewrite list_lookup_imap in Hr.
    destruct (l !! i) as [y|]; [|done]. injection Hr as <-. apply He.
  - intros x (r & Hr & Hx)%elem_of_issues_collect.
    apply list_elem_of_lookup in Hr as [i Hr].
    rewrite list_lookup_imap in Hr.
    destruct (l !! i) as [y|]; [|done]. injection Hr as <-.
    eapply prefix_snoc_l, He, Hx.
Qed.

Lemma reports_well_zRecord {A} (valueType : Parser A) :
  reports_well valueType → reports_well (zRecord valueType).
Proof.
  intros Hv v path.
  destruct v as [[| | | | |o]|]; simpl;
    try (split; [done|]; intros x ->%list_elem_of_singleton; reflexivity).
  split.
  - intros Hnil.
    destruct (collect _) as [kvs|issues] eqn:Hc; [done|]. injection Hnil as ->.
    revert Hc. apply collect_not_empty.
    intros r ([k y] & -> & _)%list_elem_of_fmap. simpl.
    destruct (Hv (Some y) (path ++ [PKey k])) as [Hne _].
    destruct (valueType _ _); simpl; [discriminate|].
    intros [= ->]. by apply Hne.
  - intros x. rewrite issues_of_result_map.
    intros (r & ([k y] & -> & _)%list_elem_of_fmap & Hx)%elem_of_issues_collect.
    rewrite issues_of_result_map in Hx. eapply prefix_snoc_l, Hv, Hx.
Qed.

Lemma unknownKeysIssues_path unknownKeys shapeKeys o path x :
  x ∈ unknownKeysIssues unknownKeys shapeKeys o path → issue_path x = path.
Proof.
  unfold unknownKeysIssues. destruct unknownKeys; [by intros ?%elem_of_nil|].
  destruct (extraKeys _ _); [by intros ?%elem_of_nil|].
  by intros ->%list_elem_of_singleton.
Qed.

Lemma reports_well_zObject1 {A B} unknownKeys k1 (s1 : Parser A) (mk : A → B) :
  reports_well s1 → reports_well (zObject1 unknownKeys k1 s1 mk).
Proof.
  intros H1 v path.
  destruct v as [[| | | | |o]|];
    try (split; [done|]; intros x ->%list_elem_of_singleton; reflexivity).
  destruct (H1 (o !! k1) (path ++ [PKey k1])) as [Hne Hpath]. split.
  - simpl. destruct (s1 _ _) as [a|issues].
    + by destruct (unknownKeysIssues _ _ _ _).
    + intros [= Happ]. apply app_eq_nil in Happ as [-> _]. done.
  - intros x. rewrite issues_of_zObject1.
    intros [Hx|Hx]%elem_of_app.
    + eapply prefix_snoc_l, Hpath, Hx.
    + by rewrite (unknownKeysIssues_path _ _ _ _ _ Hx).
Qed.

Lemma reports_well_zObject2 {A1 A2 B} unknownKeys k1 (s1 : Parser A1) k2 (s2 : Parser A2)
    (mk : A1 → A2 → B) :
  reports_well s1 → reports_well s2 →
  reports_well (zObject2 unknownKeys k1 s1 k2 s2 mk).
Proof.
  intros H1 H2 v path.
  destruct v as [[| | | | |o]|];
    try (split; [done|]; intros x ->%list_elem_of_singleton; reflexivity).
  destruct (H1 (o !! k1) (path ++ [PKey k1])) as [Hne1 Hpath1].
  destruct (H2 (o !! k2) (path ++ [PKey k2])) as [Hne2 Hpath2]. split.
  - simpl. destruct (s1 _ _) as [a1|issues1].
    + destruct (s2 _ _) as [a2|issues2].
      * by destruct (unknownKeysIssues _ _ _ _).
      * intros [= Happ]. simpl in Happ. apply app_eq_nil in Happ as [-> _]. done.
    + intros [= Happ]. apply app_eq_nil in Happ as [-> _]. done.
  - intros x. rewrite issues_of_zObject2.
    intros [Hx|[Hx|Hx]%elem_of_app]%elem_of_app.
    + eapply prefix_snoc_l, Hpath1, Hx.
    + eapply prefix_snoc_l, Hpath2, Hx.
    + by rewrite (unknownKeysIssues_path _ _ _ _ _ Hx).
Qed.

Lemma reports_well_backstageBlock : reports_well (zOptional backstageBlockSchema).
Proof.
  apply reports_well_zOptional, reports_well_zObject1, reports_well_zOptional,
    reports_well_zObject2.
  - apply reports_well_zOptional, reports_well_zArray, reports_well_zObject2;
      apply reports_well_zString.
  - apply reports_well_zOptional, reports_well_zRecord, reports_well_globalValueSchema.
Qed.

Lemma reports_well_schema : reports_well pkgJsonWithNewConfigSchema.
Proof. apply reports_well_zObject1, reports_well_backstageBlock. Qed.

(** ** The issues of a manifest, level by level *)

Lemma issues_of_manifest_object o :
  issues_of (safeParse pkgJsonWithNewConfigSchema (JObject o)) =
    issues_of (zOptional backstageBlockSchema (o !! "backstage") [PKey "backstage"]).
Proof.
  unfold safeParse, pkgJsonWithNewConfigSchema.
  rewrite issues_of_zObject1. apply app_nil_r.
Qed.

Lemma issues_of_backstage_object b :
  issues_of (zOptional backstageBlockSchema (Some (JObject b)) [PKey "backstage"]) =
    issues_of (zOptional newBlockSchema (b !! "new") [PKey "backstage"; PKey "new"]).
Proof.
  rewrite issues_of_zOptional. unfold backstageBlockSchema.
  rewrite issues_of_zObject1. apply app_nil_r.
Qed.

Lemma issues_of_manifest_new pkgJson v :
  manifestNewBlock pkgJson = Some v →
  issues_of (safeParse pkgJsonWithNewConfigSchema pkgJson) =
    issues_of (newBlockSchema (Some v) [PKey "backstage"; PKey "new"]).
Proof.
  unfold manifestNewBlock.
  destruct pkgJson as [| | | | |o]; try done. cbn [json_get].
  destruct (o !! "backstage") as [[| | | | |b]|] eqn:Hb; try done. cbn [json_get].
  intros Hn.
  by rewrite issues_of_manifest_object, Hb, issues_of_backstage_object, Hn,
    issues_of_zOptional.
Qed.

Lemma issues_of_new_object n :
  issues_of (newBlockSchema (Some (JObject n)) [PKey "backstage"; PKey "new"]) =
    issues_of (zOptional (zArray templatePointerSchema) (n !! "templates")
                 [PKey "backstage"; PKey "new"; PKey "templates"]) ++
    issues_of (zOptional (zRecord globalValueSchema) (n !! "globals")
                 [PKey "backstage"; PKey "new"; PKey "globals"]) ++
    unknownKeysIssues strict ["templates"; "globals"] n [PKey "backstage"; PKey "new"].
Proof. unfold newBlockSchema. by rewrite issues_of_zObject2. Qed.

(** The issues of a template entry are issues of the manifest. *)
Lemma template_entry_issue pkgJson ts i entry x :
  manifestTemplates pkgJson = Some (JArray ts) →
  ts !! i = Some entry →
  x ∈ issues_of (templatePointerSchema (Some entry)
                   [PKey "backstage"; PKey "new"; PKey "templates"; PIndex i]) →
  x ∈ issues_of (safeParse pkgJsonWithNewConfigSchema pkgJson).
Proof.
  unfold manifestTemplates. intros Hts Hi Hx.
  destruct (manifestNewBlock pkgJson) as [[| | | | |n]|] eqn:Hn; try done.
  cbn [json_get] in Hts.
  rewrite (issues_of_manifest_new _ _ Hn), issues_of_new_object, Hts, issues_of_zOptional.
  apply elem_of_app. left. unfold zArray.
  apply elem_of_issues_collect. eexists. split; [|exact Hx].
  apply (list_elem_of_lookup_2 _ i). by rewrite list_lookup_imap, Hi.
Qed.

(** The issues of a declared global are issues of the manifest. *)
Lemma global_value_issue pkgJson g k v x :
  json_get "globals" (manifestNewBlock pkgJson) = Some (JObject g) →
  g !! k = Some v →
  x ∈ issues_of (globalValueSchema (Some v)
                   [PKey "backstage"; PKey "new"; PKey "globals"; PKey k]) →
  x ∈ issues_of (safeParse pkgJsonWithNewConfigSchema pkgJson).
Proof.
  intros Hg Hk Hx.
  destruct (manifestNewBlock pkgJson) as [[| | | | |n]|] eqn:Hn; try done.
  cbn [json_get] in Hg.
  rewrite (issues_of_manifest_new _ _ Hn), issues_of_new_object, Hg, issues_of_zOptional.
  apply elem_of_app. right. apply elem_of_app. left. unfold zRecord.
  rewrite issues_of_result_map. apply elem_of_issues_collect.
  eexists. split.
  - apply list_elem_of_fmap. exists (k, v). split; [reflexivity|].
    by apply elem_of_map_to_list.
  - by rewrite issues_of_result_map.
Qed.

Lemma elem_of_extraKeys2 (k1 k2 : string) (o : gmap string json) (k : string) :
  k ∈ extraKeys [k1; k2] o ↔ is_Some (o !! k) ∧ k ≠ k1 ∧ k ≠ k2.
Proof.
  unfold extraKeys. rewrite list_elem_of_filter, list_elem_of_fmap. split.
  - intros [Hk ([k' x] & -> & Hin%elem_of_map_to_list)]. simpl in *.
    split; [by exists x|]. split; intros ->; apply Hk.
    + apply list_elem_of_here.
    + apply list_elem_of_further, list_elem_of_here.
  - intros ([x Hk] & Hk1 & Hk2). split.
    + intros Hin. apply elem_of_cons in Hin as [->|Hin]; [done|].
      apply elem_of_cons in Hin as [->|Hin]; [done|]. by apply elem_of_nil in Hin.
    + exists (k, x). split; [done|]. by apply elem_of_map_to_list.
Qed.

Lemma safeParse_INVALID_of_issues pkgJson issues :
  issues ≠ [] →
  issues_of (safeParse pkgJsonWithNewConfigSchema pkgJson) = issues →
  safeParse pkgJsonWithNewConfigSchema pkgJson = INVALID issues.
Proof. destruct (safeParse _ _); simpl; intros Hne <-; done. Qed.

Section LoadConfigFurther.

Context (readJson : string → LoadConfigError + json)
        (resolveTargetRoot : string → string)
        (defaultTemplates : list TemplatePointer).

(** An issue of the manifest ends up in the cause of the thrown error. *)
Lemma loadConfig_issue options pkgJson x :
  readJson (pkgPathOf resolveTargetRoot options) = inr pkgJson →
  x ∈ issues_of (safeParse pkgJsonWithNewConfigSchema pkgJson) →
  ∃ issues,
    loadConfig readJson resolveTargetRoot defaultTemplates options =
      inl (ForwardedError
             ("Failed to load templating configuration from '"
                +:+ pkgPathOf resolveTargetRoot options +:+ "'")
             (fromZodError issues)) ∧
    x ∈ issues.
Proof.
  intros Hread (issues & Hparse & Hx)%elem_of_issues_INVALID.
  pose proof (loadConfig_validated readJson resolveTargetRoot defaultTemplates
                options _ Hread) as Hload.
  rewrite Hparse in Hload. eauto.
Qed.

(** When the only issues are [issues], they are the cause. *)
Lemma loadConfig_issues_exactly options pkgJson issues :
  readJson (pkgPathOf resolveTargetRoot options) = inr pkgJson →
  safeParse pkgJsonWithNewConfigSchema pkgJson = INVALID issues →
  loadConfig readJson resolveTargetRoot defaultTemplates options =
    inl (ForwardedError
           ("Failed to load templating configuration from '"
              +:+ pkgPathOf resolveTargetRoot options +:+ "'")
           (fromZodError issues)).
Proof.
  intros Hread Hparse.
  pose proof (loadConfig_validated readJson resolveTargetRoot defaultTemplates
                options _ Hread) as Hload.
  by rewrite Hparse in Hload.
Qed.

(** Every failure of [loadConfig] is the failure of the read, passed on as it
    is, or the [ForwardedError] that names the path that was read and whose
    cause holds at least one issue of a manifest that does not conform. *)
Theorem loadConfig_failure_kinds options e :
  loadConfig readJson resolveTargetRoot defaultTemplates options = inl e →
  readJson (pkgPathOf resolveTargetRoot options) = inl e ∨
  ∃ pkgJson issues,
    readJson (pkgPathOf resolveTargetRoot options) = inr pkgJson ∧
    manifestConforms pkgJson = false ∧
    issues ≠ [] ∧
    e = ForwardedError
          ("Failed to load templating configuration from '"
             +:+ pkgPathOf resolveTargetRoot options +:+ "'")
          (fromZodError issues).
Proof.
  unfold loadConfig. destruct (readJson _) as [e'|pkgJson] eqn:Hread.
  { intros [= ->]. by left. }
  pose proof (safeParse_is_ok pkgJson) as Hok.
  destruct (safeParse _ _) as [data|issues] eqn:Hparse; [done|].
  intros [= <-]. right. exists pkgJson, issues. repeat split; try done.
  intros ->. by destruct (reports_well_schema (Some pkgJson) []) as [Hne _].
Qed.

(** Every issue reported for a manifest that is an object is located under
    [backstage]. *)
Theorem loadConfig_issues_under_backstage options o message cause x :
  readJson (pkgPathOf resolveTargetRoot options) = inr (JObject o) →
  loadConfig readJson resolveTargetRoot defaultTemplates options
    = inl (ForwardedError message cause) →
  x ∈ details cause →
  [PKey "backstage"] `prefix_of` issue_path x.
Proof.
  intros Hread Hload Hx. unfold loadConfig in Hload. rewrite Hread in Hload.
  destruct (safeParse _ _) as [data|issues] eqn:Hparse; [done|].
  injection Hload as _ <-. simpl in Hx.
  assert (x ∈ issues_of (safeParse pkgJsonWithNewConfigSchema (JObject o))) as Hin
    by (by rewrite Hparse).
  rewrite issues_of_manifest_object in Hin.
  by apply reports_well_backstageBlock in Hin.
Qed.

(** A key of the [new] block other than [templates] and [globals] is reported
    as unrecognized, at [backstage.new]. *)
Theorem loadConfig_unknown_new_key options pkgJson n k :
  readJson (pkgPathOf resolveTargetRoot options) = inr pkgJson →
  manifestNewBlock pkgJson = Some (JObject n) →
  is_Some (n !! k) → k ≠ "templates" → k ≠ "globals" →
  ∃ issues ks,
    loadConfig readJson resolveTargetRoot defaultTemplates options =
      inl (ForwardedError
             ("Failed to load templating configuration from '"
                +:+ pkgPathOf resolveTargetRoot options +:+ "'")
             (fromZodError issues)) ∧
    unrecognized_keys ks [PKey "backstage"; PKey "new"] ∈ issues ∧
    k ∈ ks.
Proof.
  intros Hread Hn [v Hk] Ht Hg.
  assert (k ∈ extraKeys ["templates"; "globals"] n) as Hin.
  { apply list_elem_of_filter. split.
    - intros Hin. apply elem_of_cons in Hin as [->|Hin]; [done|].
      apply elem_of_cons in Hin as [->|Hin]; [done|]. by apply elem_of_nil in Hin.
    - apply list_elem_of_fmap. exists (k, v). split; [done|].
      by apply elem_of_map_to_list. }
  destruct (loadConfig_issue options pkgJson
              (unrecognized_keys (extraKeys ["templates"; "globals"] n)
                 [PKey "backstage"; PKey "new"]) Hread) as (issues & Hload & Hx).
  { rewrite (issues_of_manifest_new _ _ Hn), issues_of_new_object.
    do 2 (apply elem_of_app; right). unfold unknownKeysIssues.
    destruct (extraKeys _ n); [by apply elem_of_nil in Hin|]. apply list_elem_of_here. }
  by exists issues, (extraKeys ["templates"; "globals"] n).
Qed.

(** A declared global that is not a string, a number or a boolean is reported
    at its key under [backstage.new.globals], as a union none of whose three
    alternatives took the value, each naming the type it received. *)
Theorem loadConfig_bad_global_issue options pkgJson g k v :
  readJson (pkgPathOf resolveTargetRoot options) = inr pkgJson →
  json_get "globals" (manifestNewBlock pkgJson) = Some (JObject g) →
  g !! k = Some v →
  json_to_scalar v = None →
  let path := [PKey "backstage"; PKey "new"; PKey "globals"; PKey k] in
  ∃ issues,
    loadConfig readJson resolveTargetRoot defaultTemplates options =
      inl (ForwardedError
             ("Failed to load templating configuration from '"
                +:+ pkgPathOf resolveTargetRoot options +:+ "'")
             (fromZodError issues)) ∧
    invalid_union
      [[invalid_type string_ (getParsedType (Some v)) path];
       [invalid_type number (getParsedType (Some v)) path];
       [invalid_type boolean (getParsedType (Some v)) path]] path ∈ issues.
Proof.
  intros Hread Hg Hk Hv path.
  apply (loadConfig_issue options pkgJson _ Hread).
  apply (global_value_issue _ _ _ _ _ Hg Hk).
  destruct v; try done; apply list_elem_of_here.
Qed.

(** A template entry that is not an object, or whose [id] or [target] is
    missing or not a string, is reported at the entry, or at the field of the
    entry, with the type that was received. *)
Theorem loadConfig_bad_template_entry options pkgJson ts i entry :
  readJson (pkgPathOf resolveTargetRoot options) = inr pkgJson →
  manifestTemplates pkgJson = Some (JArray ts) →
  ts !! i = Some entry →
  templateEntryConforms entry = false →
  let path := [PKey "backstage"; PKey "new"; PKey "templates"; PIndex i] in
  ∃ issues,
    loadConfig readJson resolveTargetRoot defaultTemplates options =
      inl (ForwardedError
             ("Failed to load templating configuration from '"
                +:+ pkgPathOf resolveTargetRoot options +:+ "'")
             (fromZodError issues)) ∧
    match entry with
    | JObject e =>
        (isString (e !! "id") = false →
         invalid_type string_ (getParsedType (e !! "id")) (path ++ [PKey "id"]) ∈ issues) ∧
        (isString (e !! "target") = false →
         invalid_type string_ (getParsedType (e !! "target")) (path ++ [PKey "target"])
           ∈ issues) ∧
        (isString (e !! "id") = true → isString (e !! "target") = true →
         ∃ ks, unrecognized_keys ks path ∈ issues ∧ ks ≠ [] ∧
               ∀ k, k ∈ ks ↔ is_Some (e !! k) ∧ k ≠ "id" ∧ k ≠ "target")
    | _ => invalid_type object (getParsedType (Some entry)) path ∈ issues
    end.
Proof.
  intros Hread Hts Hi Hbad path.
  pose proof (is_ok_templatePointerSchema entry path) as Hok. rewrite Hbad in Hok.
  destruct (templatePointerSchema (Some entry) path) as [tp|entryIssues] eqn:Hentry;
    [done|].
  assert (entryIssues ≠ []) as Hne.
  { intros ->.
    by destruct (reports_well_zObject2 strict "id" zString "target" zString
                   Build_TemplatePointer reports_well_zString reports_well_zString
                   (Some entry) path) as [Hne _]. }
  destruct entryIssues as [|x0 rest]; [done|].
  destruct (loadConfig_issue options pkgJson x0 Hread) as (issues & Hload & _).
  { apply (template_entry_issue _ _ _ _ _ Hts Hi). fold path. rewrite Hentry.
    apply list_elem_of_here. }
  exists issues. split; [done|].
  assert (∀ x, x ∈ issues_of (templatePointerSchema (Some entry) path) → x ∈ issues)
    as Hsub.
  { intros x Hx.
    destruct (loadConfig_issue options pkgJson x Hread) as (issues' & Hload' & Hx').
    { by apply (template_entry_issue _ _ _ _ _ Hts Hi). }
    rewrite Hload in Hload'. unfold fromZodError in Hload'.
    by injection Hload' as <-. }
  clear Hentry Hok. destruct entry as [| | | | |e];
    try (apply Hsub; apply list_elem_of_here).
  unfold templatePointerSchema in Hsub. rewrite issues_of_zObject2 in Hsub.
  repeat split.
  - intros Hid. apply Hsub, elem_of_app. left.
    destruct (e !! "id") as [[]|]; try done; apply list_elem_of_here.
  - intros Htarget. apply Hsub, elem_of_app. right. apply elem_of_app. left.
    destruct (e !! "target") as [[]|]; try done; apply list_elem_of_here.
  - intros Hid Htarget. simpl in Hbad. rewrite Hid, Htarget in Hbad. simpl in Hbad.
    apply bool_decide_eq_false in Hbad.
    rewrite <- extraKeys_nil_dom in Hbad.
    exists (extraKeys ["id"; "target"] e). split; [|split; [done|]].
    + apply Hsub. do 2 (apply elem_of_app; right). unfold unknownKeysIssues.
      destruct (extraKeys _ e); [done|]. apply list_elem_of_here.
    + intros k. apply elem_of_extraKeys2.
Qed.

(** A manifest, a [backstage] entry or a [new] entry that is not an object
    ([null] included) is rejected with exactly one issue, which names the type
    that was received and the place. *)
Theorem loadConfig_not_an_object options pkgJson :
  readJson (pkgPathOf resolveTargetRoot options) = inr pkgJson →
  let rejected issues :=
    loadConfig readJson resolveTargetRoot defaultTemplates options =
      inl (ForwardedError
             ("Failed to load templating configuration from '"
                +:+ pkgPathOf resolveTargetRoot options +:+ "'")
             (fromZodError issues)) in
  (absentOrObject (Some pkgJson) = false →
   rejected [invalid_type object (getParsedType (Some pkgJson)) []]) ∧
  (∀ v, json_get "backstage" (Some pkgJson) = Some v →
        absentOrObject (Some v) = false →
        rejected [invalid_type object (getParsedType (Some v)) [PKey "backstage"]]) ∧
  (∀ v, manifestNewBlock pkgJson = Some v →
        absentOrObject (Some v) = false →
        rejected [invalid_type object (getParsedType (Some v))
                    [PKey "backstage"; PKey "new"]]).
Proof.
  intros Hread rejected. unfold rejected. repeat split.
  - intros Hno. apply (loadConfig_issues_exactly _ _ _ Hread).
    by destruct pkgJson.
  - intros v Hb Hno. apply (loadConfig_issues_exactly _ _ _ Hread).
    destruct pkgJson as [| | | | |o]; try done. cbn [json_get] in Hb.
    unfold safeParse, pkgJsonWithNewConfigSchema. cbn [zObject1]. rewrite Hb.
    by destruct v.
  - intros v Hn Hno. apply (loadConfig_issues_exactly _ _ _ Hread).
    apply safeParse_INVALID_of_issues; [done|].
    rewrite (issues_of_manifest_new _ _ Hn). by destruct v.
Qed.

(** A [templates] entry that is not an array, and a [globals] entry that is
    not an object, are reported at their place with the type received. *)
Theorem loadConfig_wrong_container options pkgJson v :
  readJson (pkgPathOf resolveTargetRoot options) = inr pkgJson →
  let rejected_with x :=
    ∃ issues,
      loadConfig readJson resolveTargetRoot defaultTemplates options =
        inl (ForwardedError
               ("Failed to load templating configuration from '"
                  +:+ pkgPathOf resolveTargetRoot options +:+ "'")
               (fromZodError issues)) ∧
      x ∈ issues in
  (manifestTemplates pkgJson = Some v → isArray v = false →
   rejected_with (invalid_type array (getParsedType (Some v))
                    [PKey "backstage"; PKey "new"; PKey "templates"])) ∧
  (json_get "globals" (manifestNewBlock pkgJson) = Some v →
   absentOrObject (Some v) = false →
   rejected_with (invalid_type object (getParsedType (Some v))
                    [PKey "backstage"; PKey "new"; PKey "globals"])).
Proof.
  intros Hread rejected_with. unfold rejected_with, manifestTemplates. split.
  - intros Hts Hno. apply (loadConfig_issue _ _ _ Hread).
    destruct (manifestNewBlock pkgJson) as [[| | | | |n]|] eqn:Hn; try done.
    cbn [json_get] in Hts.
    rewrite (issues_of_manifest_new _ _ Hn), issues_of_new_object, Hts, issues_of_zOptional.
    apply elem_of_app. left. destruct v; try done; apply list_elem_of_here.
  - intros Hg Hno. apply (loadConfig_issue _ _ _ Hread).
    destruct (manifestNewBlock pkgJson) as [[| | | | |n]|] eqn:Hn; try done.
    cbn [json_get] in Hg.
    rewrite (issues_of_manifest_new _ _ Hn), issues_of_new_object, Hg, issues_of_zOptional.
    apply elem_of_app. right. apply elem_of_app. left.
    destruct v; try done; apply list_elem_of_here.
Qed.

(** For a manifest object whose [backstage] is absent or an object, the
    outcome is decided by the [new] block alone. *)
Lemma loadConfig_via_newBlock options o :
  readJson (pkgPathOf resolveTargetRoot options) = inr (JObject o) →
  absentOrObject (o !! "backstage") = true →
  loadConfig readJson resolveTargetRoot defaultTemplates options =
    match zOptional newBlockSchema (manifestNewBlock (JObject o))
            [PKey "backstage"; PKey "new"] with
    | OK newConfig =>
        inr {| isUsingDefaultTemplates := not_array (newConfig ≫= nb_templates);
               templatePointers := default defaultTemplates (newConfig ≫= nb_templates);
               globals :=
                 spread (globalOverrides options)
                   (spread (newConfig ≫= nb_globals)
                      (spread (Some defaultGlobals) ∅)) |}
    | INVALID issues =>
        inl (ForwardedError
               ("Failed to load templating configuration from '"
                  +:+ pkgPathOf resolveTargetRoot options +:+ "'")
               (fromZodError issues))
    end.
Proof.
  intros Hread Hshape.
  assert (issues_of (safeParse pkgJsonWithNewConfigSchema (JObject o)) =
          issues_of (zOptional newBlockSchema (manifestNewBlock (JObject o))
                       [PKey "backstage"; PKey "new"])) as Hissues.
  { rewrite issues_of_manifest_object. unfold manifestNewBlock. cbn [json_get].
    destruct (o !! "backstage") as [[| | | | |b]|]; try done.
    by rewrite issues_of_backstage_object. }
  destruct (zOptional newBlockSchema _ _) as [newConfig|issues] eqn:Hnew.
  - unfold loadConfig. rewrite Hread.
    destruct (safeParse _ _) as [data|issues] eqn:Hparse.
    + do 2 f_equal;
        assert (pj_backstage data ≫= bs_new = newConfig) as ->; try done;
        unfold safeParse, pkgJsonWithNewConfigSchema in Hparse;
        apply zObject1_OK in Hparse as (o' & bs & [= <-] & Hbs%zOptional_OK & _ & ->);
        unfold manifestNewBlock in Hnew; cbn [json_get] in Hnew; simpl;
        (destruct bs as [bs|]; simpl;
         [destruct Hbs as [_ Hbs]; unfold backstageBlockSchema in Hbs;
          apply zObject1_OK in Hbs as (b & nb & Hb & Hnb & _ & ->);
          rewrite Hb in Hnew; cbn [json_get] in Hnew; simpl in Hnb; simpl; congruence
         |rewrite Hbs in Hnew; simpl in Hnew; congruence]).
    + simpl in Hissues. subst issues.
      by destruct (reports_well_schema (Some (JObject o)) []) as [Hne _].
  - apply (loadConfig_issues_exactly _ _ _ Hread).
    apply safeParse_INVALID_of_issues; [|done].
    intros ->. unfold manifestNewBlock in Hnew.
    by destruct (reports_well_zOptional _
                   (reports_well_zObject2 strict "templates" _ "globals" _ Build_NewBlock
                      (reports_well_zOptional _
                         (reports_well_zArray _
                            (reports_well_zObject2 strict "id" _ "target" _
                               Build_TemplatePointer
                               reports_well_zString reports_well_zString)))
                      (reports_well_zOptional _
                         (reports_well_zRecord _ reports_well_globalValueSchema)))
                   (json_get "new" (json_get "backstage" (Some (JObject o))))
                   [PKey "backstage"; PKey "new"]) as [Hne _].
Qed.

End LoadConfigFurther.

(** Keys next to [backstage] and next to [new] do not matter, nor does it
    matter whether an empty [backstage] is there at all: two manifests with
    the same [backstage.new] load to the same result. *)
Theorem loadConfig_depends_on_new_block
    (readJson1 readJson2 : string → LoadConfigError + json)
    resolveTargetRoot defaultTemplates options o1 o2 :
  readJson1 (pkgPathOf resolveTargetRoot options) = inr (JObject o1) →
  readJson2 (pkgPathOf resolveTargetRoot options) = inr (JObject o2) →
  absentOrObject (o1 !! "backstage") = true →
  absentOrObject (o2 !! "backstage") = true →
  manifestNewBlock (JObject o1) = manifestNewBlock (JObject o2) →
  loadConfig readJson1 resolveTargetRoot defaultTemplates options =
  loadConfig readJson2 resolveTargetRoot defaultTemplates options.
Proof.
  intros Hread1 Hread2 Hshape1 Hshape2 Hnew.
  rewrite (loadConfig_via_newBlock _ _ _ _ _ Hread1 Hshape1).
  rewrite (loadConfig_via_newBlock _ _ _ _ _ Hread2 Hshape2).
  by rewrite Hnew.
Qed.

(** The overrides play no part in validation or in the templates: loading
    with overrides is loading without them and then laying the overrides over
    the globals. *)
Theorem loadConfig_overrides_compose
    (readJson : string → LoadConfigError + json) resolveTargetRoot defaultTemplates
    (path : option string) (overrides : gmap string scalar) :
  loadConfig readJson resolveTargetRoot defaultTemplates
    {| packagePath := path; globalOverrides := Some overrides |} =
  match loadConfig readJson resolveTargetRoot defaultTemplates
          {| packagePath := path; globalOverrides := None |} with
  | inl e => inl e
  | inr cfg =>
      inr {| isUsingDefaultTemplates := isUsingDefaultTemplates cfg;
             templatePointers := templatePointers cfg;
             globals := overlay (globals cfg) overrides |}
  end.
Proof.
  unfold loadConfig, pkgPathOf. cbn [packagePath globalOverrides].
  destruct (readJson _) as [e|pkgJson]; [done|].
  destruct (safeParse _ _) as [data|issues]; [|done].
  cbn [isUsingDefaultTemplates templatePointers globals].
  do 2 f_equal. by rewrite (spread_union (Some overrides)).
Qed.

(** ** Loading what was written *)










(** ** The further properties on the sample manifests *)

Lemma loadConfig_failure_kinds_witness :
  ∃ issues,
    issues ≠ [] ∧
    loadConfig (sampleReadJson manifestNullBackstage) sampleRoot sampleDefaultTemplates
      (sampleOptions None) =
      inl (ForwardedError
             "Failed to load templating configuration from '/repo/package.json'"
             (fromZodError issues)).
Proof.
  destruct (loadConfig_failure_kinds (sampleReadJson manifestNullBackstage) sampleRoot
              sampleDefaultTemplates (sampleOptions None)
              (ForwardedError
                 "Failed to load templating configuration from '/repo/package.json'"
                 (fromZodError [invalid_type object null [PKey "backstage"]])))
    as [Hread|(pkgJson & issues & _ & _ & Hne & He)].
  - vm_compute; reflexivity.
  - discriminate Hread.
  - exists issues. split; [exact Hne|].
    transitivity (@inl LoadConfigError NewConfig
                    (ForwardedError
                       "Failed to load templating configuration from '/repo/package.json'"
                       (fromZodError [invalid_type object null [PKey "backstage"]]))).
    + vm_compute; reflexivity.
    + f_equal. exact He.
Defined.

Lemma loadConfig_issues_under_backstage_witness :
  [PKey "backstage"] `prefix_of`
    issue_path (invalid_type string_ undefined
                  [PKey "backstage"; PKey "new"; PKey "templates"; PIndex 0; PKey "id"]).
Proof.
  eapply (loadConfig_issues_under_backstage (sampleReadJson manifestMissingId) sampleRoot
            sampleDefaultTemplates (sampleOptions None)).
  - reflexivity.
  - vm_compute; reflexivity.
  - apply list_elem_of_here.
Defined.

Lemma loadConfig_unknown_new_key_witness :
  ∃ issues ks,
    loadConfig (sampleReadJson manifestUnknownNewKey) sampleRoot sampleDefaultTemplates
      (sampleOptions None) =
      inl (ForwardedError
             "Failed to load templating configuration from '/repo/package.json'"
             (fromZodError issues)) ∧
    unrecognized_keys ks [PKey "backstage"; PKey "new"] ∈ issues ∧
    "template" ∈ ks.
Proof.
  eapply (loadConfig_unknown_new_key (sampleReadJson manifestUnknownNewKey) sampleRoot
            sampleDefaultTemplates (sampleOptions None) manifestUnknownNewKey
            _ "template").
  - reflexivity.
  - vm_compute; reflexivity.
  - vm_compute. eexists; reflexivity.
  - discriminate.
  - discriminate.
Defined.

Lemma loadConfig_bad_global_issue_witness :
  ∃ issues,
    loadConfig (sampleReadJson manifestBadGlobal) sampleRoot sampleDefaultTemplates
      (sampleOptions None) =
      inl (ForwardedError
             "Failed to load templating configuration from '/repo/package.json'"
             (fromZodError issues)) ∧
    let path := [PKey "backstage"; PKey "new"; PKey "globals"; PKey "owners"] in
    invalid_union
      [[invalid_type string_ array path];
       [invalid_type number array path];
       [invalid_type boolean array path]] path ∈ issues.
Proof.
  eapply (loadConfig_bad_global_issue (sampleReadJson manifestBadGlobal) sampleRoot
            sampleDefaultTemplates (sampleOptions None) manifestBadGlobal
            _ "owners" (JArray [JString "me"])).
  - reflexivity.
  - vm_compute; reflexivity.
  - vm_compute; reflexivity.
  - reflexivity.
Defined.

Lemma loadConfig_bad_template_entry_witness :
  ∃ issues,
    loadConfig (sampleReadJson manifestMissingId) sampleRoot sampleDefaultTemplates
      (sampleOptions None) =
      inl (ForwardedError
             "Failed to load templating configuration from '/repo/package.json'"
             (fromZodError issues)) ∧
    invalid_type string_ undefined
      [PKey "backstage"; PKey "new"; PKey "templates"; PIndex 0; PKey "id"] ∈ issues.
Proof.
  destruct (loadConfig_bad_template_entry (sampleReadJson manifestMissingId) sampleRoot
              sampleDefaultTemplates (sampleOptions None) manifestMissingId
              [jobject [("target", JString "plugins/a")]] 0
              (jobject [("target", JString "plugins/a")]))
    as (issues & Hload & Hid & _).
  - reflexivity.
  - vm_compute; reflexivity.
  - reflexivity.
  - vm_compute; reflexivity.
  - exists issues. split; [exact Hload|]. apply Hid. vm_compute; reflexivity.
Defined.

Lemma loadConfig_not_an_object_witness :
  loadConfig (sampleReadJson (JArray [])) sampleRoot sampleDefaultTemplates
    (sampleOptions None) =
    inl (ForwardedError
           "Failed to load templating configuration from '/repo/package.json'"
           (fromZodError [invalid_type object array []])) ∧
  loadConfig (sampleReadJson manifestNullBackstage) sampleRoot sampleDefaultTemplates
    (sampleOptions None) =
    inl (ForwardedError
           "Failed to load templating configuration from '/repo/package.json'"
           (fromZodError [invalid_type object null [PKey "backstage"]])) ∧
  loadConfig (sampleReadJson manifestStringNew) sampleRoot sampleDefaultTemplates
    (sampleOptions None) =
    inl (ForwardedError
           "Failed to load templating configuration from '/repo/package.json'"
           (fromZodError [invalid_type object string_ [PKey "backstage"; PKey "new"]])).
Proof.
  split; [|split].
  - apply (loadConfig_not_an_object (sampleReadJson (JArray [])) sampleRoot
             sampleDefaultTemplates (sampleOptions None) (JArray []) eq_refl).
    reflexivity.
  - apply (proj1 (proj2 (loadConfig_not_an_object (sampleReadJson manifestNullBackstage)
                    sampleRoot sampleDefaultTemplates (sampleOptions None)
                    manifestNullBackstage eq_refl)) JNull).
    + vm_compute; reflexivity.
    + reflexivity.
  - apply (proj2 (proj2 (loadConfig_not_an_object (sampleReadJson manifestStringNew)
                    sampleRoot sampleDefaultTemplates (sampleOptions None)
                    manifestStringNew eq_refl)) (JString "templates")).
    + vm_compute; reflexivity.
    + reflexivity.
Defined.

Lemma loadConfig_wrong_container_witness :
  (∃ issues,
     loadConfig (sampleReadJson manifestTemplatesObject) sampleRoot sampleDefaultTemplates
       (sampleOptions None) =
       inl (ForwardedError
              "Failed to load templating configuration from '/repo/package.json'"
              (fromZodError issues)) ∧
     invalid_type array object [PKey "backstage"; PKey "new"; PKey "templates"] ∈ issues) ∧
  (∃ issues,
     loadConfig (sampleReadJson manifestGlobalsArray) sampleRoot sampleDefaultTemplates
       (sampleOptions None) =
       inl (ForwardedError
              "Failed to load templating configuration from '/repo/package.json'"
              (fromZodError issues)) ∧
     invalid_type object array [PKey "backstage"; PKey "new"; PKey "globals"] ∈ issues).
Proof.
  split.
  - apply (proj1 (loadConfig_wrong_container (sampleReadJson manifestTemplatesObject)
                    sampleRoot sampleDefaultTemplates (sampleOptions None)
                    manifestTemplatesObject (jobject []) eq_refl)).
    + vm_compute; reflexivity.
    + reflexivity.
  - apply (proj2 (loadConfig_wrong_container (sampleReadJson manifestGlobalsArray)
                    sampleRoot sampleDefaultTemplates (sampleOptions None)
                    manifestGlobalsArray (JArray []) eq_refl)).
    + vm_compute; reflexivity.
    + reflexivity.
Defined.

Lemma loadConfig_depends_on_new_block_witness :
  loadConfig (sampleReadJson manifestPlain) sampleRoot sampleDefaultTemplates
    (sampleOptions None) =
  loadConfig (sampleReadJson manifestBackstageOnly) sampleRoot sampleDefaultTemplates
    (sampleOptions None).
Proof.
  apply (loadConfig_depends_on_new_block (sampleReadJson manifestPlain)
           (sampleReadJson manifestBackstageOnly) sampleRoot sampleDefaultTemplates
           (sampleOptions None)
           (list_to_map [("name", JString "example"); ("version", JString "1.0.0")])
           (list_to_map [("backstage", jobject [("role", JString "cli")]);
                         ("private", JBool true)])).
  - reflexivity.
  - reflexivity.
  - vm_compute; reflexivity.
  - vm_compute; reflexivity.
  - vm_compute; reflexivity.
Defined.

